(** * ISMS maturity backend: scoring, classification, roadmap generation
      and progress tracking

    A shallow embedding of the questionnaire and roadmap logic of the
    backend:

    - [routes/questionnaires.js]: the per-response scoring of the
      submission ([POST /]) and update ([PUT /:id]) handlers, with the
      request validators of the submission handler;
    - the Questionnaire model: the item schema, the [pre('save')] hook
      that derives the scores, and [getMaturityLevel];
    - the Roadmap model: the [overallProgress] and [categoryProgress]
      virtuals, the [pre('save')] hook, [addTask], [updateTaskStatus] and
      [addMilestone];
    - [routes/roadmaps.js]: the generation of the initial tasks, the
      metadata update handler and the task handlers.

    Modelling conventions.

    - A JavaScript number is an exact rational ([Q]); a number that is the
      result of [Math.round] is an integer ([Z]).  Rounding errors of the
      binary floating point format are outside the model.
    - A string stays a [string] where the code compares or builds strings:
      the sequence of its bytes.  On ASCII text a byte is a character, and
      [String.length] is the length JavaScript measures; what is stated
      about lengths is stated for ASCII text ([ascii_text]).  [trim]
      removes the white space of ASCII.
      In stored documents the paths the logic branches on ([category],
      [response], the [status] of a task) are inductive types, their
      [enum] being checked when the document is cast; the other [enum]
      paths stay strings, checked against their [enum] at the cast.
    - An optional field of a request body is an [option]: [None] is an
      absent field.
    - Dates are milliseconds since the epoch ([Z]); [new Date()] is a
      parameter [now] of the operation that reads the clock.
    - The database is a list of documents; a handler is a function from
      the database to a reply and the database after the request.
    - [save()] validates a document against its schema before it runs the
      [pre('save')] hooks of the schema, and stores the document only
      when both went through. *)

From Stdlib Require Import QArith Qround DecimalString Lqa Ascii.
From stdpp Require Import base option list strings.

Open Scope string_scope.

(** ** JavaScript primitives *)

Module Js.

(** [Math.round(x)]: the nearest integer, a tie going up. *)
Definition Math_round (x : Q) : Z := Qfloor (x + (1 # 2)).

(** [x > y] and [x >= y] and [x < y] on numbers. *)
Definition gt (x y : Q) : bool := negb (Qle_bool x y).
Definition ge (x y : Q) : bool := Qle_bool y x.
Definition lt (x y : Q) : bool := negb (Qle_bool y x).

(** Truthiness of a string: every string but the empty one. *)
Definition truthy (s : string) : bool := negb (String.eqb s "").

(** [a || b] on an optional string. *)
Definition or_default (a : option string) (b : string) : string :=
  match a with
  | Some s => if truthy s then s else b
  | None => b
  end.

(** The white space [trim] removes, as far as ASCII has it: space, tab,
    line feed, vertical tab, form feed and carriage return. *)
Definition is_space (c : ascii) : bool :=
  existsb (Ascii.eqb c) [" "; "009"; "010"; "011"; "012"; "013"]%char.

Fixpoint trimStart (s : string) : string :=
  match s with
  | String c rest => if is_space c then trimStart rest else s
  | EmptyString => EmptyString
  end.

Fixpoint trimEnd (s : string) : string :=
  match s with
  | String c rest =>
      match trimEnd rest with
      | EmptyString => if is_space c then EmptyString else String c EmptyString
      | kept => String c kept
      end
  | EmptyString => EmptyString
  end.

(** [s.trim()], the [trim: true] setter of a schema path and the
    [.trim()] sanitizer of a validation chain. *)
Definition trim (s : string) : string := trimEnd (trimStart s).

End Js.

Definition ObjectId := string.
Definition Date := Z.

(** ** The four PDCA categories *)

Module Category.

Inductive t := Plan | Do | Check | Act.

#[global] Instance eq_dec : EqDecision t.
Proof. solve_decision. Defined.

Definition to_string (c : t) : string :=
  match c with
  | Plan => "Plan" | Do => "Do" | Check => "Check" | Act => "Act"
  end.

Definition of_string (s : string) : option t :=
  if String.eqb s "Plan" then Some Plan
  else if String.eqb s "Do" then Some Do
  else if String.eqb s "Check" then Some Check
  else if String.eqb s "Act" then Some Act
  else None.

(** The keys of an object literal [{ Plan: _, Do: _, Check: _, Act: _ }],
    in the order [Object.keys] and [Object.entries] list them. *)
Definition keys : list t := [Plan; Do; Check; Act].

End Category.

(** An object with one property per category. *)
Module ByCategory.

Record t (A : Type) := mk { Plan : A; Do : A; Check : A; Act : A }.
Arguments mk {A}.
Arguments Plan {A}.
Arguments Do {A}.
Arguments Check {A}.
Arguments Act {A}.

Definition const {A} (a : A) : t A := mk a a a a.

(** [o[c]] *)
Definition get {A} (c : Category.t) (o : t A) : A :=
  match c with
  | Category.Plan => Plan o
  | Category.Do => Do o
  | Category.Check => Check o
  | Category.Act => Act o
  end.

(** [o[c] = a] *)
Definition set {A} (c : Category.t) (a : A) (o : t A) : t A :=
  match c with
  | Category.Plan => mk a (Do o) (Check o) (Act o)
  | Category.Do => mk (Plan o) a (Check o) (Act o)
  | Category.Check => mk (Plan o) (Do o) a (Act o)
  | Category.Act => mk (Plan o) (Do o) (Check o) a
  end.

(** [Object.entries(o)] *)
Definition entries {A} (o : t A) : list (Category.t * A) :=
  map (fun c => (c, get c o)) Category.keys.

End ByCategory.

(** ** Questionnaire documents *)

Module ResponseValue.

Inductive t := Oui | Non | Partiellement.

#[global] Instance eq_dec : EqDecision t.
Proof. solve_decision. Defined.

Definition to_string (v : t) : string :=
  match v with
  | Oui => "Oui" | Non => "Non" | Partiellement => "Partiellement"
  end.

Definition of_string (s : string) : option t :=
  if String.eqb s "Oui" then Some Oui
  else if String.eqb s "Non" then Some Non
  else if String.eqb s "Partiellement" then Some Partiellement
  else None.

End ResponseValue.

(** An element of [req.body.responses], as the client sent it. *)
Module ResponseInput.

Record t := mk {
  questionId : string;
  questionText : string;
  category : string;
  clause : string;
  weight : option Q;
  critical : option bool;
  response : string
}.

End ResponseInput.

(** [{ ...response, score }] *)
Module ScoredInput.

Record t := mk {
  input : ResponseInput.t;
  score : option Q
}.

End ScoredInput.

(** A stored element of [responses] ([questionResponseSchema]). *)
Module QuestionResponse.

Record t := mk {
  questionId : string;
  questionText : string;
  category : Category.t;
  clause : string;
  weight : Q;
  critical : bool;
  response : ResponseValue.t;
  score : Q
}.

End QuestionResponse.

Module MaturityLevel.

Record t := mk {
  level : string;
  color : string;
  description : string
}.

End MaturityLevel.

Module NonConformity.

Record t := mk {
  question : string;
  clause : string;
  impact : string
}.

End NonConformity.

Module Questionnaire.

Record t := mk {
  _id : ObjectId;
  userId : ObjectId;
  responses : list QuestionResponse.t;
  overallScore : Q;
  categoryScores : ByCategory.t Z;
  maturityLevel : MaturityLevel.t;
  majorNonConformities : list NonConformity.t;
  totalQuestions : nat;
  answeredQuestions : nat;
  completionTime : Q;
  status : string;
  notes : string;
  tags : list string
}.

End Questionnaire.

(** *** [questionnaireSchema.methods.getMaturityLevel] *)

Definition getMaturityLevel (score : Q) : MaturityLevel.t :=
  if Js.ge score 90 then
    MaturityLevel.mk "Excellence" "success" "SMSI mature et robuste"
  else if Js.ge score 75 then
    MaturityLevel.mk "Avancé" "info" "SMSI bien structuré"
  else if Js.ge score 60 then
    MaturityLevel.mk "Intermédiaire" "warning" "SMSI en développement"
  else if Js.ge score 40 then
    MaturityLevel.mk "Basique" "secondary" "SMSI en phase initiale"
  else
    MaturityLevel.mk "Critique" "danger"
      "SMSI nécessite une attention immédiate".


(** *** Per-response scoring ([routes/questionnaires.js])

    The two handlers carry the same arrow function; both copies are
    embedded, as the source has them. *)

(** [POST /]: the body of [responses.map(response => ...)]. *)
Definition score_on_submit (response : ResponseInput.t) : option Q :=
  if String.eqb (ResponseInput.response response) "Oui" then
    ResponseInput.weight response
  else if String.eqb (ResponseInput.response response) "Partiellement" then
    (fun w => w * (1 # 2))%Q <$> ResponseInput.weight response
  else
    Some 0%Q.

Definition scoredResponses_submit (responses : list ResponseInput.t)
  : list ScoredInput.t :=
  (fun response => ScoredInput.mk response (score_on_submit response))
    <$> responses.

(** [PUT /:id]: the body of [responses.map(response => ...)]. *)
Definition score_on_update (response : ResponseInput.t) : option Q :=
  if String.eqb (ResponseInput.response response) "Oui" then
    ResponseInput.weight response
  else if String.eqb (ResponseInput.response response) "Partiellement" then
    (fun w => w * (1 # 2))%Q <$> ResponseInput.weight response
  else
    Some 0%Q.

Definition scoredResponses_update (responses : list ResponseInput.t)
  : list ScoredInput.t :=
  (fun response => ScoredInput.mk response (score_on_update response))
    <$> responses.

(** The scoring rule in the words of the specification:
    [weight] for Oui, [weight * 0.5] for Partiellement, [0] for Non. *)
Definition spec_score (v : ResponseValue.t) (w : Q) : Q :=
  match v with
  | ResponseValue.Oui => w
  | ResponseValue.Partiellement => (w * (1 # 2))%Q
  | ResponseValue.Non => 0%Q
  end.

(** *** Request validation of [POST /] (express-validator chains)

    Each chain contributes its message once per value that fails it; a
    wildcard chain [responses.*.f] runs on every element. *)

Module Msg.
Definition responses_required := "At least one response is required".
Definition questionId_required := "Question ID is required for each response".
Definition questionText_required :=
  "Question text is required for each response".
Definition category_invalid := "Invalid category for response".
Definition clause_required := "Clause is required for each response".
Definition weight_number := "Weight must be a number".
Definition critical_boolean := "Critical must be a boolean".
Definition response_invalid := "Response must be Oui, Non, or Partiellement".
Definition notes_too_long := "Notes cannot exceed 1000 characters".
End Msg.

Module SubmitBody.
Record t := mk {
  responses : list ResponseInput.t;
  completionTime : option Q;
  notes : option string;
  tags : option (list string)
}.
End SubmitBody.

(** [.notEmpty()] *)
Definition notEmpty (s : string) : bool := negb (String.eqb s "").

(** [.isIn(values)] *)
Definition isIn (values : list string) (s : string) : bool :=
  existsb (String.eqb s) values.

(** [.isNumeric()] on a field that is a number when present. *)
Definition isNumeric (w : option Q) : bool :=
  match w with Some _ => true | None => false end.

(** [.isBoolean()] on a field that is a boolean when present. *)
Definition isBoolean (b : option bool) : bool :=
  match b with Some _ => true | None => false end.

(** One wildcard chain over the elements of [responses]. *)
Definition each (check : ResponseInput.t -> bool) (msg : string)
    (responses : list ResponseInput.t) : list string :=
  flat_map (fun r => if check r then [] else [msg]) responses.

Definition validate_submit (body : SubmitBody.t) : list string :=
  let responses := SubmitBody.responses body in
  (if (1 <=? length responses)%nat then [] else [Msg.responses_required])
  ++ each (fun r => notEmpty (ResponseInput.questionId r))
          Msg.questionId_required responses
  ++ each (fun r => notEmpty (ResponseInput.questionText r))
          Msg.questionText_required responses
  ++ each (fun r => isIn ["Plan"; "Do"; "Check"; "Act"]
                         (ResponseInput.category r))
          Msg.category_invalid responses
  ++ each (fun r => notEmpty (ResponseInput.clause r))
          Msg.clause_required responses
  ++ each (fun r => isNumeric (ResponseInput.weight r))
          Msg.weight_number responses
  ++ each (fun r => isBoolean (ResponseInput.critical r))
          Msg.critical_boolean responses
  ++ each (fun r => isIn ["Oui"; "Non"; "Partiellement"]
                         (ResponseInput.response r))
          Msg.response_invalid responses
  ++ match SubmitBody.notes body with
     | Some n => if (String.length n <=? 1000)%nat then []
                 else [Msg.notes_too_long]
     | None => []
     end.

(** *** The item schema ([questionResponseSchema])

    Casting and validating one element when the document is saved:
    [required] strings must be non-empty, [category] and [response] must
    be in their [enum], [weight] and [score] must be numbers, and
    [critical] defaults to [false].  [None] is a validation error. *)
Definition castResponse (s : ScoredInput.t) : option QuestionResponse.t :=
  let r := ScoredInput.input s in
  if negb (notEmpty (ResponseInput.questionId r)) then None
  else if negb (notEmpty (ResponseInput.questionText r)) then None
  else if negb (notEmpty (ResponseInput.clause r)) then None
  else
    match Category.of_string (ResponseInput.category r),
          ResponseValue.of_string (ResponseInput.response r),
          ResponseInput.weight r,
          ScoredInput.score s with
    | Some c, Some v, Some w, Some sc =>
        Some (QuestionResponse.mk
                (ResponseInput.questionId r) (ResponseInput.questionText r)
                c (ResponseInput.clause r) w
                (default false (ResponseInput.critical r)) v sc)
    | _, _, _, _ => None
    end.

Definition castResponses (l : list ScoredInput.t)
  : option (list QuestionResponse.t) :=
  mapM castResponse l.

(** *** [questionnaireSchema.pre('save')]: the derived fields

    A computed number is kept in lowest terms ([Qred]), so that it has
    one representation. *)

(** [responses.reduce((sum, r) => sum + f(r), 0)] *)
Definition reduce_sum (f : QuestionResponse.t -> Q)
    (responses : list QuestionResponse.t) : Q :=
  fold_left (fun sum r => (sum + f r)%Q) responses 0%Q.

Definition compute_overallScore (responses : list QuestionResponse.t) : Q :=
  let totalWeight := reduce_sum QuestionResponse.weight responses in
  let totalScore := reduce_sum QuestionResponse.score responses in
  if Js.gt totalWeight 0 then
    Qred (inject_Z (Js.Math_round (totalScore / totalWeight * 100 * 10)) / 10)
  else 0%Q.

(** The two accumulators filled by [responses.forEach]. *)
Definition accumulate (responses : list QuestionResponse.t)
  : ByCategory.t Q * ByCategory.t Q :=
  fold_left
    (fun '(categoryScores, categoryWeights) response =>
       let c := QuestionResponse.category response in
       (ByCategory.set c
          (ByCategory.get c categoryScores + QuestionResponse.score response)%Q
          categoryScores,
        ByCategory.set c
          (ByCategory.get c categoryWeights
           + QuestionResponse.weight response)%Q
          categoryWeights))
    responses (ByCategory.const 0%Q, ByCategory.const 0%Q).

Definition compute_categoryScores (current : ByCategory.t Z)
    (responses : list QuestionResponse.t) : ByCategory.t Z :=
  let '(categoryScores, categoryWeights) := accumulate responses in
  fold_left
    (fun out category =>
       ByCategory.set category
         (if Js.gt (ByCategory.get category categoryWeights) 0 then
            Js.Math_round
              (ByCategory.get category categoryScores
               / ByCategory.get category categoryWeights * 100)
          else 0%Z)
         out)
    Category.keys current.

(** [this.responses.filter(r => r.response).length] *)
Definition count_answered (responses : list QuestionResponse.t) : nat :=
  length (filter
            (fun r => Js.truthy (ResponseValue.to_string
                                   (QuestionResponse.response r)) = true)
            responses).

(** The hook on a stored document; [modified] is
    [this.isModified('responses')]. *)
Definition questionnaire_preSave (modified : bool) (q : Questionnaire.t)
  : Questionnaire.t :=
  if modified then
    let responses := Questionnaire.responses q in
    let overallScore := compute_overallScore responses in
    Questionnaire.mk
      (Questionnaire._id q) (Questionnaire.userId q) responses
      overallScore
      (compute_categoryScores (Questionnaire.categoryScores q) responses)
      (getMaturityLevel overallScore)
      (Questionnaire.majorNonConformities q)
      (length responses)
      (count_answered responses)
      (Questionnaire.completionTime q) (Questionnaire.status q)
      (Questionnaire.notes q) (Questionnaire.tags q)
  else q.


(** *** The handlers of [routes/questionnaires.js] *)

Module User.
Record t := mk { _id : ObjectId; role : string }.
End User.

(** What a handler answers: the status code with what the claims need of
    the payload. *)
Inductive Reply (A : Type) :=
| Created (doc : A)                          (* 201 *)
| Success (doc : A)                          (* 200 *)
| ValidationFailed (details : list string)   (* 400 *)
| AccessDenied                               (* 403 *)
| NotFound                                   (* 404 *)
| InternalError (error : string).            (* 500, from [catch] *)
Arguments Created {A}.
Arguments Success {A}.
Arguments ValidationFailed {A}.
Arguments AccessDenied {A}.
Arguments NotFound {A}.
Arguments InternalError {A}.

(** A questionnaire in memory that was never saved.  A path the schema
    marks [required] without a [default] is unset ([None]) unless the
    constructor was given it; [majorNonConformities] defaults to the empty
    array and [status] to ['completed']. *)
Module NewQuestionnaire.
Record t := mk {
  userId : option ObjectId;
  responses : list ScoredInput.t;
  overallScore : option Q;
  categoryScores : option (ByCategory.t Z);
  maturityLevel : option MaturityLevel.t;
  totalQuestions : option nat;
  answeredQuestions : option nat;
  completionTime : option Q;
  notes : string;
  tags : list string
}.
End NewQuestionnaire.

(** [new Questionnaire({ userId, responses, completionTime, notes, tags })]:
    the five paths the handler gives; the derived paths are left unset. *)
Definition new_Questionnaire (userId : ObjectId)
    (responses : list ScoredInput.t) (completionTime : Q)
    (notes : string) (tags : list string) : NewQuestionnaire.t :=
  NewQuestionnaire.mk (Some userId) responses None None None None None
    (Some completionTime) notes tags.

(** [questionnaire.save()] on a new document.  Validation comes first:
    every [required] path must be set, [notes] must respect its
    [maxlength], and every element of [responses] must pass the item
    schema.  The document that passed is handed to the hook, for which
    [responses] is modified, and stored under [newId].  [None] is the
    rejection of [save()]. *)
Definition save_new (newId : ObjectId) (doc : NewQuestionnaire.t)
  : option Questionnaire.t :=
  userId ← NewQuestionnaire.userId doc;
  overallScore ← NewQuestionnaire.overallScore doc;
  categoryScores ← NewQuestionnaire.categoryScores doc;
  maturityLevel ← NewQuestionnaire.maturityLevel doc;
  totalQuestions ← NewQuestionnaire.totalQuestions doc;
  answeredQuestions ← NewQuestionnaire.answeredQuestions doc;
  completionTime ← NewQuestionnaire.completionTime doc;
  responses ← castResponses (NewQuestionnaire.responses doc);
  if (String.length (NewQuestionnaire.notes doc) <=? 1000)%nat then
    Some (questionnaire_preSave true
            (Questionnaire.mk newId userId responses overallScore
               categoryScores maturityLevel [] totalQuestions
               answeredQuestions completionTime "completed"
               (NewQuestionnaire.notes doc) (NewQuestionnaire.tags doc)))
  else None.

(** [POST /api/questionnaires]; [newId] is the identifier the new
    document would receive. *)
Definition submit (user : User.t) (newId : ObjectId) (body : SubmitBody.t)
    (db : list Questionnaire.t) : Reply Questionnaire.t * list Questionnaire.t :=
  match validate_submit body with
  | [] =>
      let scoredResponses :=
        scoredResponses_submit (SubmitBody.responses body) in
      let questionnaire :=
        new_Questionnaire (User._id user) scoredResponses
          (default 0%Q (SubmitBody.completionTime body))
          (Js.or_default (SubmitBody.notes body) "")
          (default [] (SubmitBody.tags body)) in
      match save_new newId questionnaire with
      | Some saved => (Created saved, (db ++ [saved])%list)
      | None => (InternalError "Questionnaire submission failed", db)
      end
  | details => (ValidationFailed details, db)
  end.

Module UpdateBody.
Record t := mk {
  responses : option (list ResponseInput.t);
  notes : option string;
  tags : option (list string);
  status : option string
}.
End UpdateBody.

Definition validate_update (body : UpdateBody.t) : list string :=
  match UpdateBody.responses body with
  | Some responses =>
      if (1 <=? length responses)%nat then [] else [Msg.responses_required]
  | None => []
  end
  ++ match UpdateBody.notes body with
     | Some n => if (String.length n <=? 1000)%nat then []
                 else [Msg.notes_too_long]
     | None => []
     end
  ++ match UpdateBody.status body with
     | Some s => if isIn ["draft"; "completed"; "archived"] s then []
                 else ["Invalid status"]
     | None => []
     end.

(** [Questionnaire.findById(id)] *)
Definition findQuestionnaire (id : ObjectId) (db : list Questionnaire.t)
  : option (nat * Questionnaire.t) :=
  list_find (fun q => Questionnaire._id q = id) db.

(** The assignments of [PUT /:id] after the ownership check, the element
    cast of the new [responses] included. *)
Definition apply_update (body : UpdateBody.t) (q : Questionnaire.t)
  : option Questionnaire.t :=
  responses ←
    match UpdateBody.responses body with
    | Some responses => castResponses (scoredResponses_update responses)
    | None => Some (Questionnaire.responses q)
    end;
  Some (Questionnaire.mk
          (Questionnaire._id q) (Questionnaire.userId q) responses
          (Questionnaire.overallScore q) (Questionnaire.categoryScores q)
          (Questionnaire.maturityLevel q)
          (Questionnaire.majorNonConformities q)
          (Questionnaire.totalQuestions q)
          (Questionnaire.answeredQuestions q)
          (Questionnaire.completionTime q)
          (default (Questionnaire.status q) (UpdateBody.status body))
          (default (Questionnaire.notes q) (UpdateBody.notes body))
          (default (Questionnaire.tags q) (UpdateBody.tags body))).

(** [PUT /api/questionnaires/:id] *)
Definition update (user : User.t) (id : ObjectId) (body : UpdateBody.t)
    (db : list Questionnaire.t) : Reply Questionnaire.t * list Questionnaire.t :=
  match validate_update body with
  | [] =>
      match findQuestionnaire id db with
      | None => (NotFound, db)
      | Some (i, questionnaire) =>
          if negb (String.eqb (Questionnaire.userId questionnaire)
                              (User._id user))
             && negb (String.eqb (User.role user) "admin")
          then (AccessDenied, db)
          else
            match apply_update body questionnaire with
            | Some assigned =>
                let saved :=
                  questionnaire_preSave
                    (bool_decide (is_Some (UpdateBody.responses body)))
                    assigned in
                (Success saved, <[i := saved]> db)
            | None => (InternalError "Failed to update questionnaire", db)
            end
      end
  | details => (ValidationFailed details, db)
  end.


(** ** Roadmap documents *)

Module TaskStatus.

Inductive t := NotStarted | InProgress | Completed | OnHold.

#[global] Instance eq_dec : EqDecision t.
Proof. solve_decision. Defined.

Definition to_string (s : t) : string :=
  match s with
  | NotStarted => "Not Started"
  | InProgress => "In Progress"
  | Completed => "Completed"
  | OnHold => "On Hold"
  end.

Definition of_string (s : string) : option t :=
  if String.eqb s "Not Started" then Some NotStarted
  else if String.eqb s "In Progress" then Some InProgress
  else if String.eqb s "Completed" then Some Completed
  else if String.eqb s "On Hold" then Some OnHold
  else None.

End TaskStatus.

(** A plain object that describes a task: an element of [initialTasks],
    or [req.body] of [POST /:id/tasks]. *)
Module TaskData.

Record t := mk {
  title : string;
  description : string;
  category : string;
  priority : string;
  estimatedEffort : string;
  cost : string;
  status : option string;
  startDate : option Date;
  dueDate : option Date;
  completedDate : option Date;
  assignedTo : option string;
  notes : option string
}.

End TaskData.

(** A stored task ([taskSchema]); the array paths [dependencies],
    [resources] and [attachments], which no operation here reads or
    writes, are left out. *)
Module Task.

Record t := mk {
  _id : ObjectId;
  title : string;
  description : string;
  category : Category.t;
  priority : string;
  estimatedEffort : string;
  cost : string;
  status : TaskStatus.t;
  startDate : option Date;
  dueDate : option Date;
  completedDate : option Date;
  assignedTo : option string;
  notes : option string
}.

#[global] Instance eq_dec : EqDecision t.
Proof. solve_decision. Defined.

(** [task.status = status] *)
Definition set_status (status : TaskStatus.t) (task : t) : t :=
  mk (_id task) (title task) (description task) (category task)
     (priority task) (estimatedEffort task) (cost task) status
     (startDate task) (dueDate task) (completedDate task)
     (assignedTo task) (notes task).

(** [task.completedDate = date] *)
Definition set_completedDate (date : Date) (task : t) : t :=
  mk (_id task) (title task) (description task) (category task)
     (priority task) (estimatedEffort task) (cost task) (status task)
     (startDate task) (dueDate task) (Some date)
     (assignedTo task) (notes task).

End Task.

Module MilestoneData.

Record t := mk {
  title : string;
  description : string;
  targetDate : option Date;
  status : option string;
  tasks : list ObjectId
}.

End MilestoneData.

(** A stored milestone ([milestoneSchema]). *)
Module Milestone.

Record t := mk {
  _id : ObjectId;
  title : string;
  description : string;
  targetDate : Date;
  status : string;
  tasks : list ObjectId;
  completionPercentage : Q
}.

End Milestone.

Module PriorityArea.

Record t := mk {
  category : Category.t;
  currentScore : Z;
  targetScore : Z;
  improvementNeeded : Z
}.

End PriorityArea.

Module Progress.

Record t := mk {
  overall : Z;
  byCategory : ByCategory.t Z
}.

End Progress.

(** A stored roadmap ([roadmapSchema]).  The paths [riskAssessment],
    [complianceRequirements], [tags] and [version] hold fixed text that
    no operation here reads; they are left out. *)
Module Roadmap.

Record t := mk {
  _id : ObjectId;
  userId : ObjectId;
  questionnaireId : ObjectId;
  title : string;
  description : string;
  currentMaturityLevel : string;
  targetMaturityLevel : string;
  estimatedTimeline : string;
  totalEstimatedCost : string;
  milestones : list Milestone.t;
  tasks : list Task.t;
  priorityAreas : list PriorityArea.t;
  progress : Progress.t;
  status : string;
  lastUpdated : Date
}.

Definition set_tasks (v : list Task.t) (r : t) : t :=
  mk (_id r) (userId r) (questionnaireId r) (title r) (description r)
     (currentMaturityLevel r) (targetMaturityLevel r) (estimatedTimeline r)
     (totalEstimatedCost r) (milestones r) v (priorityAreas r)
     (progress r) (status r) (lastUpdated r).

Definition set_milestones (v : list Milestone.t) (r : t) : t :=
  mk (_id r) (userId r) (questionnaireId r) (title r) (description r)
     (currentMaturityLevel r) (targetMaturityLevel r) (estimatedTimeline r)
     (totalEstimatedCost r) v (tasks r) (priorityAreas r)
     (progress r) (status r) (lastUpdated r).

Definition set_progress (v : Progress.t) (r : t) : t :=
  mk (_id r) (userId r) (questionnaireId r) (title r) (description r)
     (currentMaturityLevel r) (targetMaturityLevel r) (estimatedTimeline r)
     (totalEstimatedCost r) (milestones r) (tasks r) (priorityAreas r)
     v (status r) (lastUpdated r).

Definition set_lastUpdated (v : Date) (r : t) : t :=
  mk (_id r) (userId r) (questionnaireId r) (title r) (description r)
     (currentMaturityLevel r) (targetMaturityLevel r) (estimatedTimeline r)
     (totalEstimatedCost r) (milestones r) (tasks r) (priorityAreas r)
     (progress r) (status r) v.

End Roadmap.

(** *** The progress virtuals *)

Definition is_completed (task : Task.t) : bool :=
  bool_decide (Task.status task = TaskStatus.Completed).

(** [roadmapSchema.virtual('overallProgress')] *)
Definition overallProgress (tasks : list Task.t) : Z :=
  if (length tasks =? 0)%nat then 0%Z
  else
    let completedTasks := length (filter (fun t => is_completed t = true) tasks) in
    Js.Math_round
      (inject_Z (Z.of_nat completedTasks) / inject_Z (Z.of_nat (length tasks))
       * 100).

(** [roadmapSchema.virtual('categoryProgress')]: two passes over the
    tasks fill the counters, a third pass over the keys turns them into
    percentages. *)
Definition count_completed (tasks : list Task.t) : ByCategory.t Z :=
  fold_left
    (fun categoryProgress task =>
       if is_completed task then
         ByCategory.set (Task.category task)
           (ByCategory.get (Task.category task) categoryProgress + 1)%Z
           categoryProgress
       else categoryProgress)
    tasks (ByCategory.const 0%Z).

Definition count_all (tasks : list Task.t) : ByCategory.t Z :=
  fold_left
    (fun categoryCounts task =>
       ByCategory.set (Task.category task)
         (ByCategory.get (Task.category task) categoryCounts + 1)%Z
         categoryCounts)
    tasks (ByCategory.const 0%Z).

Definition categoryProgress (tasks : list Task.t) : ByCategory.t Z :=
  let categoryCounts := count_all tasks in
  fold_left
    (fun categoryProgress category =>
       ByCategory.set category
         (if (ByCategory.get category categoryCounts >? 0)%Z then
            Js.Math_round
              (inject_Z (ByCategory.get category categoryProgress)
               / inject_Z (ByCategory.get category categoryCounts) * 100)
          else 0%Z)
         categoryProgress)
    Category.keys (count_completed tasks).

(** What the hook stores: both virtuals, read from the current tasks. *)
Definition recompute (tasks : list Task.t) : Progress.t :=
  Progress.mk (overallProgress tasks) (categoryProgress tasks).

(** [roadmapSchema.pre('save')]; [modified] is [this.isModified('tasks')]
    and [now] is [new Date()]. *)
Definition roadmap_preSave (modified : bool) (now : Date) (r : Roadmap.t)
  : Roadmap.t :=
  if modified then
    Roadmap.set_lastUpdated now
      (Roadmap.set_progress (recompute (Roadmap.tasks r)) r)
  else r.


(** *** Casting plain objects to sub-documents

    [None] is a validation error of the schema: a [required] string that
    is empty, a string over its [maxlength], or a value outside an
    [enum].  A [trim: true] setter runs when the path is set, so that the
    validators see the trimmed string. *)

Definition within (max : nat) (s : string) : bool :=
  (String.length s <=? max)%nat.

(** [taskSchema]; [status] defaults to ['Not Started']. *)
Definition castTask (_id : ObjectId) (d : TaskData.t) : option Task.t :=
  let title := Js.trim (TaskData.title d) in
  let description := Js.trim (TaskData.description d) in
  if negb (notEmpty title && within 200 title)
  then None
  else if negb (notEmpty description && within 1000 description)
  then None
  else if negb (isIn ["Critical"; "High"; "Medium"; "Low"]
                     (TaskData.priority d))
  then None
  else if negb (isIn ["1-2 days"; "3-5 days"; "1-2 weeks"; "2-4 weeks";
                      "1-3 months"] (TaskData.estimatedEffort d))
  then None
  else if negb (isIn ["Low"; "Medium"; "High"; "Very High"] (TaskData.cost d))
  then None
  else if negb (within 500 (default "" (TaskData.notes d)))
  then None
  else
    match Category.of_string (TaskData.category d),
          TaskStatus.of_string (default "Not Started" (TaskData.status d)) with
    | Some category, Some status =>
        Some (Task.mk _id title description
                category (TaskData.priority d) (TaskData.estimatedEffort d)
                (TaskData.cost d) status (TaskData.startDate d)
                (TaskData.dueDate d) (TaskData.completedDate d)
                (Js.trim <$> TaskData.assignedTo d) (TaskData.notes d))
    | _, _ => None
    end.

(** [milestoneSchema]; [status] defaults to ['Pending'] and
    [completionPercentage] to [0]. *)
Definition castMilestone (_id : ObjectId) (d : MilestoneData.t)
  : option Milestone.t :=
  let title := Js.trim (MilestoneData.title d) in
  let description := Js.trim (MilestoneData.description d) in
  if negb (notEmpty title && within 200 title)
  then None
  else if negb (notEmpty description && within 500 description)
  then None
  else if negb (isIn ["Pending"; "In Progress"; "Completed"; "Delayed"]
                     (default "Pending" (MilestoneData.status d)))
  then None
  else
    match MilestoneData.targetDate d with
    | Some targetDate =>
        Some (Milestone.mk _id title description targetDate
                (default "Pending" (MilestoneData.status d))
                (MilestoneData.tasks d) 0%Q)
    | None => None
    end.

(** Casting an array; the element at index [i] receives the identifier
    [ids i]. *)
Definition castArray {A B} (cast : ObjectId -> A -> option B)
    (ids : nat -> ObjectId) (l : list A) : option (list B) :=
  mapM (fun p : nat * A => cast (ids (fst p)) (snd p)) (imap pair l).

(** *** The instance methods of the Roadmap model

    A method takes the document ([this]) and answers with the error it
    throws or rejects with, if any, and the document as it is stored
    after the call. *)

Inductive Error :=
| TaskNotFound       (* [new Error('Task not found')] *)
| ValidationError    (* [save()] rejects *)
| ModelError.        (* [new this.model(name)] throws *)

Definition Outcome : Type := option Error * Roadmap.t.

(** [new this.model(name)], the callee of the two [add] methods:
    [new this.model('Task')(taskData)] is
    [(new this.model('Task'))(taskData)].  [this.model] looks the model up
    on the connection of its receiver; run as a constructor its receiver
    is a fresh object that has none, and no model of the names ['Task']
    and ['Milestone'] is registered either, the two schemas being used as
    sub-document schemas only.  The expression throws, whatever the
    name. *)
Definition new_this_model {A B : Type} (name : string)
  : Error + (A -> B) :=
  inl ModelError.

(** [roadmapSchema.methods.addTask]: the first statement throws, before
    the [push] and the [save()]. *)
Definition addTask (newId : ObjectId) (now : Date) (taskData : TaskData.t)
    (this : Roadmap.t) : Outcome :=
  match new_this_model "Task" with
  | inr construct =>
      let task : Task.t := construct taskData in
      (None,
       roadmap_preSave true now
         (Roadmap.set_tasks (Roadmap.tasks this ++ [task])%list this))
  | inl error => (Some error, this)
  end.

(** [this.tasks.id(taskId)]: the first task with that identifier, with
    its index. *)
Definition tasks_id (taskId : ObjectId) (tasks : list Task.t)
  : option (nat * Task.t) :=
  list_find (fun t => Task._id t = taskId) tasks.

(** The two assignments of [updateTaskStatus] on the task found. *)
Definition assign_status (status : TaskStatus.t) (now : Date) (task : Task.t)
  : Task.t :=
  let task := Task.set_status status task in
  if bool_decide (status = TaskStatus.Completed) then
    Task.set_completedDate now task
  else task.

(** [roadmapSchema.methods.updateTaskStatus]; an assignment marks the
    path modified when it changes the value. *)
Definition updateTaskStatus (taskId : ObjectId) (status : TaskStatus.t)
    (now : Date) (this : Roadmap.t) : Outcome :=
  match tasks_id taskId (Roadmap.tasks this) with
  | Some (i, task) =>
      let task' := assign_status status now task in
      (None,
       roadmap_preSave (bool_decide (task' <> task)) now
         (Roadmap.set_tasks (<[i := task']> (Roadmap.tasks this)) this))
  | None => (Some TaskNotFound, this)
  end.

(** [roadmapSchema.methods.addMilestone]: as [addTask], with the name
    ['Milestone']. *)
Definition addMilestone (newId : ObjectId) (now : Date)
    (milestoneData : MilestoneData.t) (this : Roadmap.t) : Outcome :=
  match new_this_model "Milestone" with
  | inr construct =>
      let milestone : Milestone.t := construct milestoneData in
      (None,
       roadmap_preSave false now
         (Roadmap.set_milestones
            (Roadmap.milestones this ++ [milestone])%list this))
  | inl error => (Some error, this)
  end.

(** *** [PUT /api/roadmaps/:id]: the metadata update

    The body of the request; [progress] stands for a property of that
    name a client adds to the body. *)
Module MetadataBody.

Record t := mk {
  title : option string;
  description : option string;
  status : option string;
  estimatedTimeline : option string;
  totalEstimatedCost : option string;
  progress : option Progress.t
}.

End MetadataBody.

Definition optional (check : string -> bool) (v : option string) : bool :=
  match v with Some s => check s | None => true end.

Definition validate_metadata (body : MetadataBody.t) : bool :=
  optional (fun s => (3 <=? String.length (Js.trim s))%nat
                     && within 200 (Js.trim s))
           (MetadataBody.title body)
  && optional (fun s => within 1000 (Js.trim s))
              (MetadataBody.description body)
  && optional (isIn ["Draft"; "Active"; "On Hold"; "Completed"; "Archived"])
              (MetadataBody.status body)
  && optional (isIn ["3-6 months"; "6-12 months"; "1-2 years"; "2+ years"])
              (MetadataBody.estimatedTimeline body)
  && optional (isIn ["Low"; "Medium"; "High"; "Very High"])
              (MetadataBody.totalEstimatedCost body).

(** The five assignments of the handler.  The [.trim()] of a chain
    replaces the field of the body by the trimmed string. *)
Definition assign_metadata (body : MetadataBody.t) (roadmap : Roadmap.t)
  : Roadmap.t :=
  Roadmap.mk
    (Roadmap._id roadmap) (Roadmap.userId roadmap)
    (Roadmap.questionnaireId roadmap)
    (default (Roadmap.title roadmap) (Js.trim <$> MetadataBody.title body))
    (default (Roadmap.description roadmap)
             (Js.trim <$> MetadataBody.description body))
    (Roadmap.currentMaturityLevel roadmap)
    (Roadmap.targetMaturityLevel roadmap)
    (default (Roadmap.estimatedTimeline roadmap)
             (MetadataBody.estimatedTimeline body))
    (default (Roadmap.totalEstimatedCost roadmap)
             (MetadataBody.totalEstimatedCost body))
    (Roadmap.milestones roadmap) (Roadmap.tasks roadmap)
    (Roadmap.priorityAreas roadmap) (Roadmap.progress roadmap)
    (default (Roadmap.status roadmap) (MetadataBody.status body))
    (Roadmap.lastUpdated roadmap).

(** What [save()] checks of the assigned paths beyond the chains: the
    path [description] is [required], and an empty string does not
    satisfy [required]. *)
Definition metadata_saves (body : MetadataBody.t) : bool :=
  optional (fun s => notEmpty (Js.trim s)) (MetadataBody.description body).

(** The handler after the ownership check: the validation result, the
    five assignments, then [roadmap.save()]. *)
Definition updateMetadata (now : Date) (body : MetadataBody.t)
    (roadmap : Roadmap.t) : Outcome :=
  if validate_metadata body then
    if metadata_saves body then
      (None, roadmap_preSave false now (assign_metadata body roadmap))
    else (Some ValidationError, roadmap)
  else (Some ValidationError, roadmap).


(** *** [POST /api/roadmaps]: generation from a questionnaire *)

(** A number in a template literal; category scores are integers. *)
Definition string_of_Z (z : Z) : string := NilZero.string_of_int (Z.to_int z).

(** [Object.entries(questionnaire.categoryScores).map(...)] *)
Definition priorityAreas (questionnaire : Questionnaire.t)
  : list PriorityArea.t :=
  map (fun '(category, currentScore) =>
         let targetScore := Z.min 100 (currentScore + 20) in
         PriorityArea.mk category currentScore targetScore
           (targetScore - currentScore))
      (ByCategory.entries (Questionnaire.categoryScores questionnaire)).

(** The element schema of [priorityAreas]: each of the three numbers
    has [min: 0] and [max: 100]. *)
Definition castPriorityArea (area : PriorityArea.t) : bool :=
  forallb (fun n => (0 <=? n)%Z && (n <=? 100)%Z)
    [ PriorityArea.currentScore area; PriorityArea.targetScore area;
      PriorityArea.improvementNeeded area ].

(** [questionnaire.responses.find(r => r.clause === nc.clause)?.category
     || 'Plan'] *)
Definition nonConformity_category (questionnaire : Questionnaire.t)
    (nc : NonConformity.t) : string :=
  Js.or_default
    (option_map
       (fun r => Category.to_string (QuestionResponse.category r))
       (find (fun r => String.eqb (QuestionResponse.clause r)
                                  (NonConformity.clause nc))
             (Questionnaire.responses questionnaire)))
    "Plan".

(** The object pushed for one entry of [majorNonConformities]. *)
Definition nonConformity_task (questionnaire : Questionnaire.t)
    (nc : NonConformity.t) : TaskData.t :=
  TaskData.mk
    ("Resolve: " ++ NonConformity.question nc)
    ("Address the non-conformity identified in " ++ NonConformity.clause nc
     ++ ". " ++ NonConformity.impact nc)
    (nonConformity_category questionnaire nc)
    "Critical" "1-2 weeks" "Medium" (Some "Not Started")
    None None None None None.

(** The object pushed for one category with a low score. *)
Definition lowScore_task (category : Category.t) (score : Z) : TaskData.t :=
  TaskData.mk
    ("Improve " ++ Category.to_string category ++ " Category Score")
    ("Current score: " ++ string_of_Z score
     ++ "%. Focus on implementing controls and processes to improve this category.")
    (Category.to_string category)
    (if (score <? 40)%Z then "High" else "Medium")
    "2-4 weeks" "Medium" (Some "Not Started")
    None None None None None.

(** [initialTasks]: the array after the two [forEach] loops, each
    [push] appending at the end. *)
Definition initialTasks (questionnaire : Questionnaire.t) : list TaskData.t :=
  let initialTasks : list TaskData.t := [] in
  let initialTasks :=
    fold_left
      (fun initialTasks nc =>
         (initialTasks ++ [nonConformity_task questionnaire nc])%list)
      (Questionnaire.majorNonConformities questionnaire) initialTasks in
  fold_left
    (fun initialTasks '(category, score) =>
       if (score <? 60)%Z then
         (initialTasks ++ [lowScore_task category score])%list
       else initialTasks)
    (ByCategory.entries (Questionnaire.categoryScores questionnaire))
    initialTasks.

Definition days (n : Z) : Z := (n * 24 * 60 * 60 * 1000)%Z.

Definition initialMilestones (now : Date) (targetMaturityLevel : string)
  : list MilestoneData.t :=
  [ MilestoneData.mk "Initial Assessment Complete"
      "Questionnaire completed and initial roadmap created"
      (Some (now + days 30)%Z) (Some "Completed") [];
    MilestoneData.mk "Critical Issues Resolved"
      "All major non-conformities addressed"
      (Some (now + days 90)%Z) (Some "Pending") [];
    MilestoneData.mk "Target Maturity Level Achieved"
      ("Reach " ++ targetMaturityLevel ++ " maturity level")
      (Some (now + days 365)%Z) (Some "Pending") [] ].

Module CreateBody.

Record t := mk {
  title : string;
  description : option string;
  targetMaturityLevel : string;
  estimatedTimeline : string;
  totalEstimatedCost : string
}.

End CreateBody.

Definition validate_create (body : CreateBody.t) : bool :=
  (3 <=? String.length (Js.trim (CreateBody.title body)))%nat
  && within 200 (Js.trim (CreateBody.title body))
  && optional (fun s => within 1000 (Js.trim s)) (CreateBody.description body)
  && isIn ["Basique"; "Intermédiaire"; "Avancé"; "Excellence"]
          (CreateBody.targetMaturityLevel body)
  && isIn ["3-6 months"; "6-12 months"; "1-2 years"; "2+ years"]
          (CreateBody.estimatedTimeline body)
  && isIn ["Low"; "Medium"; "High"; "Very High"]
          (CreateBody.totalEstimatedCost body).

(** The handler once the questionnaire is found and belongs to the user:
    [new Roadmap({...})] and its first [save()].  A new document has
    every path it was given marked modified; [progress] starts from the
    schema defaults and [status] from ['Draft'].  [None] is a rejected
    request. *)
Definition generate (newId : ObjectId) (taskIds milestoneIds : nat -> ObjectId)
    (now : Date) (user : User.t) (body : CreateBody.t)
    (questionnaire : Questionnaire.t) : option Roadmap.t :=
  if negb (validate_create body) then None
  else if negb (isIn ["Critique"; "Basique"; "Intermédiaire"; "Avancé";
                      "Excellence"]
                     (MaturityLevel.level
                        (Questionnaire.maturityLevel questionnaire)))
  then None
  else if negb (forallb castPriorityArea (priorityAreas questionnaire))
  then None
  else
    tasks ← castArray castTask taskIds (initialTasks questionnaire);
    milestones ←
      castArray castMilestone milestoneIds
        (initialMilestones now (CreateBody.targetMaturityLevel body));
    Some (roadmap_preSave true now
            (Roadmap.mk newId (User._id user)
               (Questionnaire._id questionnaire)
               (Js.trim (CreateBody.title body))
               (Js.or_default (Js.trim <$> CreateBody.description body)
                  ("Personalized roadmap to achieve "
                   ++ CreateBody.targetMaturityLevel body
                   ++ " maturity level"))
               (MaturityLevel.level
                  (Questionnaire.maturityLevel questionnaire))
               (CreateBody.targetMaturityLevel body)
               (CreateBody.estimatedTimeline body)
               (CreateBody.totalEstimatedCost body)
               milestones tasks (priorityAreas questionnaire)
               (Progress.mk 0%Z (ByCategory.const 0%Z))
               "Draft" now)).

(** *** The roadmaps the system holds

    A roadmap comes into being by [generate]; from then on it changes
    only through the mutations the routes expose. *)

Inductive Mutation :=
| AddTask (newId : ObjectId) (taskData : TaskData.t)
| UpdateTaskStatus (taskId : ObjectId) (status : TaskStatus.t)
| AddMilestone (newId : ObjectId) (milestoneData : MilestoneData.t)
| UpdateMetadata (body : MetadataBody.t).

Definition mutate (m : Mutation) (now : Date) (roadmap : Roadmap.t) : Outcome :=
  match m with
  | AddTask newId taskData => addTask newId now taskData roadmap
  | UpdateTaskStatus taskId status =>
      updateTaskStatus taskId status now roadmap
  | AddMilestone newId milestoneData =>
      addMilestone newId now milestoneData roadmap
  | UpdateMetadata body => updateMetadata now body roadmap
  end.

Inductive reachable : Roadmap.t -> Prop :=
| reachable_generate newId taskIds milestoneIds now user body questionnaire r :
    generate newId taskIds milestoneIds now user body questionnaire = Some r ->
    reachable r
| reachable_mutate m now r :
    reachable r -> reachable (snd (mutate m now r)).


(** * Notions used in the statements *)

(** The counts the specification speaks of. *)
Definition completedCount (tasks : list Task.t) : nat :=
  length (filter (fun t => Task.status t = TaskStatus.Completed) tasks).

Definition totalCount_in (c : Category.t) (tasks : list Task.t) : nat :=
  length (filter (fun t => Task.category t = c) tasks).

Definition completedCount_in (c : Category.t) (tasks : list Task.t) : nat :=
  length (filter (fun t => Task.category t = c
                           /\ Task.status t = TaskStatus.Completed) tasks).

(** [n] is the integer nearest to [x], the upper one at a tie. *)
Definition round0 (x : Q) (n : Z) : Prop :=
  (inject_Z n - (1 # 2) <= x)%Q /\ (x < inject_Z n + (1 # 2))%Q.

(** [completed / total * 100] *)
Definition percentage (completed total : nat) : Q :=
  (inject_Z (Z.of_nat completed) / inject_Z (Z.of_nat total) * 100)%Q.

(** The stored progress agrees with the tasks. *)
Definition consistent (r : Roadmap.t) : Prop :=
  Roadmap.progress r = recompute (Roadmap.tasks r).

(** The tasks pushed by the second loop, for given category scores. *)
Definition lowScore_tasks (scores : ByCategory.t Z) : list TaskData.t :=
  let pushed c :=
    if (ByCategory.get c scores <? 60)%Z
    then [lowScore_task c (ByCategory.get c scores)] else [] in
  (pushed Category.Plan ++ pushed Category.Do ++ pushed Category.Check
   ++ pushed Category.Act)%list.

(** A reply other than 200 and 201. *)
Definition is_failure {A} (reply : Reply A) : Prop :=
  match reply with
  | Created _ | Success _ => False
  | _ => True
  end.



(** ** Sample documents and requests *)

Definition sample_user : User.t := User.mk "user-1" "user".

Definition sample_body : SubmitBody.t :=
  SubmitBody.mk
    [ ResponseInput.mk "q1" "Is a security policy defined?" "Plan" "5.2"
        (Some 10%Q) (Some true) "Oui";
      ResponseInput.mk "q2" "Are internal audits planned?" "Check" "9.2"
        (Some 0%Q) (Some false) "Non" ]
    None None None.


Definition sample_task (_id : ObjectId) (category : Category.t)
    (status : TaskStatus.t) (completedDate : option Date) : Task.t :=
  Task.mk _id "Write the policy" "Draft and publish the security policy"
    category "High" "1-2 weeks" "Medium" status None None completedDate
    None None.

Definition sample_tasks : list Task.t :=
  [ sample_task "t1" Category.Plan TaskStatus.Completed (Some 1000%Z);
    sample_task "t2" Category.Do TaskStatus.NotStarted None;
    sample_task "t3" Category.Check TaskStatus.InProgress None ].

Definition sample_roadmap : Roadmap.t :=
  Roadmap.mk "r1" "user-1" "q-1" "Roadmap" "Towards the next tier"
    "Basique" "Avancé" "6-12 months" "Medium" [] sample_tasks []
    (Progress.mk 33 (ByCategory.mk 100 0 0 0)%Z) "Active" 0%Z.

Definition sample_taskData : TaskData.t :=
  TaskData.mk "Train the staff" "Run the awareness training sessions"
    "Act" "Medium" "2-4 weeks" "Low" None None None None None None.

Definition sample_questionnaire : Questionnaire.t :=
  Questionnaire.mk "q-1" "user-1"
    [ QuestionResponse.mk "q1" "Is a security policy defined?"
        Category.Do "5.2" 10 true ResponseValue.Non 0;
      QuestionResponse.mk "q2" "Is the policy communicated?"
        Category.Check "5.2" 10 false ResponseValue.Oui 10 ]
    50 (ByCategory.mk 50 30 80 60)%Z (getMaturityLevel 50)
    [ NonConformity.mk "Is a security policy defined?" "5.2"
        "No policy frames the security objectives";
      NonConformity.mk "Are suppliers assessed?" "8.1"
        "Supplier risks are not known" ]
    2 2 0 "completed" "" [].

Definition sample_create : CreateBody.t :=
  CreateBody.mk "Roadmap" None "Avancé" "6-12 months" "Medium".

Definition sample_ids (prefix : string) (i : nat) : ObjectId :=
  prefix ++ string_of_Z (Z.of_nat i).


(** * Further operations of the same files *)

(** ** The virtuals of the Questionnaire model *)

(** [questionnaireSchema.virtual('completionPercentage')] *)
Definition completionPercentage (q : Questionnaire.t) : Q :=
  if (0 <? Questionnaire.totalQuestions q)%nat then
    (inject_Z (Z.of_nat (Questionnaire.answeredQuestions q))
     / inject_Z (Z.of_nat (Questionnaire.totalQuestions q)) * 100)%Q
  else 0%Q.

(** ** Reading and deleting a questionnaire *)

(** [GET /api/questionnaires/:id] *)
Definition getQuestionnaire (user : User.t) (id : ObjectId)
    (db : list Questionnaire.t) : Reply Questionnaire.t :=
  match findQuestionnaire id db with
  | None => NotFound
  | Some (_, questionnaire) =>
      if negb (String.eqb (Questionnaire.userId questionnaire)
                          (User._id user))
         && negb (String.eqb (User.role user) "admin")
      then AccessDenied
      else Success questionnaire
  end.

(** [DELETE /api/questionnaires/:id]; [findByIdAndDelete] removes the
    document that [findById] returns. *)
Definition deleteQuestionnaire (user : User.t) (id : ObjectId)
    (db : list Questionnaire.t) : Reply unit * list Questionnaire.t :=
  match findQuestionnaire id db with
  | None => (NotFound, db)
  | Some (i, questionnaire) =>
      if negb (String.eqb (Questionnaire.userId questionnaire)
                          (User._id user))
         && negb (String.eqb (User.role user) "admin")
      then (AccessDenied, db)
      else (Success tt, delete i db)
  end.

(** ** The routes on a stored roadmap *)

(** [Roadmap.findById(id)] *)
Definition findRoadmap (id : ObjectId) (db : list Roadmap.t)
  : option (nat * Roadmap.t) :=
  list_find (fun r => Roadmap._id r = id) db.

(** [PUT /api/roadmaps/:id/tasks/:taskId].  The chain on [status] is
    [isIn] of the four strings that [TaskStatus.of_string] reads; an
    error of the method is caught and answered with 500. *)
Definition updateTaskRoute (user : User.t) (id taskId : ObjectId)
    (status : string) (now : Date) (db : list Roadmap.t)
  : Reply unit * list Roadmap.t :=
  match TaskStatus.of_string status with
  | None => (ValidationFailed ["Invalid status"], db)
  | Some status =>
      match findRoadmap id db with
      | None => (NotFound, db)
      | Some (i, roadmap) =>
          if negb (String.eqb (Roadmap.userId roadmap) (User._id user))
             && negb (String.eqb (User.role user) "admin")
          then (AccessDenied, db)
          else
            match updateTaskStatus taskId status now roadmap with
            | (None, saved) => (Success tt, <[i := saved]> db)
            | (Some _, _) => (InternalError "Failed to update task", db)
            end
      end
  end.

(** [DELETE /api/roadmaps/:id] *)
Definition deleteRoadmap (user : User.t) (id : ObjectId)
    (db : list Roadmap.t) : Reply unit * list Roadmap.t :=
  match findRoadmap id db with
  | None => (NotFound, db)
  | Some (i, roadmap) =>
      if negb (String.eqb (Roadmap.userId roadmap) (User._id user))
         && negb (String.eqb (User.role user) "admin")
      then (AccessDenied, db)
      else (Success tt, delete i db)
  end.

(** One chain that is not a wildcard: its message when the value fails
    it. *)
Definition chain (passes : bool) (msg : string) : list string :=
  if passes then [] else [msg].

(** The chains of [PUT /api/roadmaps/:id], with their messages. *)
Definition metadata_errors (body : MetadataBody.t) : list string :=
  chain (optional (fun s => (3 <=? String.length (Js.trim s))%nat
                            && within 200 (Js.trim s))
                  (MetadataBody.title body))
        "Title must be between 3 and 200 characters"
  ++ chain (optional (fun s => within 1000 (Js.trim s))
                     (MetadataBody.description body))
           "Description cannot exceed 1000 characters"
  ++ chain (optional (isIn ["Draft"; "Active"; "On Hold"; "Completed";
                            "Archived"])
                     (MetadataBody.status body))
           "Invalid status"
  ++ chain (optional (isIn ["3-6 months"; "6-12 months"; "1-2 years";
                            "2+ years"])
                     (MetadataBody.estimatedTimeline body))
           "Invalid estimated timeline"
  ++ chain (optional (isIn ["Low"; "Medium"; "High"; "Very High"])
                     (MetadataBody.totalEstimatedCost body))
           "Invalid estimated cost".

(** [PUT /api/roadmaps/:id]: the validation result, [findById], the
    ownership check, then the assignments and the save; a rejection of
    [save()] is caught and answered with 500. *)
Definition updateRoadmapRoute (user : User.t) (id : ObjectId)
    (body : MetadataBody.t) (now : Date) (db : list Roadmap.t)
  : Reply Roadmap.t * list Roadmap.t :=
  match metadata_errors body with
  | [] =>
      match findRoadmap id db with
      | None => (NotFound, db)
      | Some (i, roadmap) =>
          if negb (String.eqb (Roadmap.userId roadmap) (User._id user))
             && negb (String.eqb (User.role user) "admin")
          then (AccessDenied, db)
          else
            match updateMetadata now body roadmap with
            | (None, saved) => (Success saved, <[i := saved]> db)
            | (Some _, _) => (InternalError "Failed to update roadmap", db)
            end
      end
  | details => (ValidationFailed details, db)
  end.

(** The chains of [POST /api/roadmaps/:id/tasks]; a field that the body
    lacks reads as the empty string, and [dueDate] is a date when it is
    present. *)
Definition validate_addTask (body : TaskData.t) : list string :=
  chain ((3 <=? String.length (Js.trim (TaskData.title body)))%nat
         && within 200 (Js.trim (TaskData.title body)))
        "Task title must be between 3 and 200 characters"
  ++ chain ((10 <=? String.length (Js.trim (TaskData.description body)))%nat
            && within 1000 (Js.trim (TaskData.description body)))
           "Task description must be between 10 and 1000 characters"
  ++ chain (isIn ["Plan"; "Do"; "Check"; "Act"] (TaskData.category body))
           "Invalid category"
  ++ chain (isIn ["Critical"; "High"; "Medium"; "Low"]
                 (TaskData.priority body))
           "Invalid priority"
  ++ chain (isIn ["1-2 days"; "3-5 days"; "1-2 weeks"; "2-4 weeks";
                  "1-3 months"] (TaskData.estimatedEffort body))
           "Invalid estimated effort"
  ++ chain (isIn ["Low"; "Medium"; "High"; "Very High"] (TaskData.cost body))
           "Invalid cost".

(** [req.body] once the chains ran: the two [.trim()] replaced [title]
    and [description]. *)
Definition sanitize_addTask (body : TaskData.t) : TaskData.t :=
  TaskData.mk (Js.trim (TaskData.title body))
    (Js.trim (TaskData.description body))
    (TaskData.category body) (TaskData.priority body)
    (TaskData.estimatedEffort body) (TaskData.cost body)
    (TaskData.status body) (TaskData.startDate body) (TaskData.dueDate body)
    (TaskData.completedDate body) (TaskData.assignedTo body)
    (TaskData.notes body).

(** [POST /api/roadmaps/:id/tasks]; the answer to a task that was added
    is the last task of the roadmap, and an error of [addTask] is caught
    and answered with 500. *)
Definition addTaskRoute (user : User.t) (id newId : ObjectId)
    (body : TaskData.t) (now : Date) (db : list Roadmap.t)
  : Reply (option Task.t) * list Roadmap.t :=
  match validate_addTask body with
  | [] =>
      match findRoadmap id db with
      | None => (NotFound, db)
      | Some (i, roadmap) =>
          if negb (String.eqb (Roadmap.userId roadmap) (User._id user))
             && negb (String.eqb (User.role user) "admin")
          then (AccessDenied, db)
          else
            let taskData := sanitize_addTask body in
            match addTask newId now taskData roadmap with
            | (None, saved) =>
                (Success (last (Roadmap.tasks saved)), <[i := saved]> db)
            | (Some _, _) => (InternalError "Failed to add task", db)
            end
      end
  | details => (ValidationFailed details, db)
  end.

(** The two count objects of [GET /api/roadmaps/:id/progress]. *)
Module TaskProgress.

Record t := mk {
  total : nat;
  completed : nat;
  inProgress : nat;
  notStarted : nat;
  onHold : nat
}.

End TaskProgress.

Module MilestoneProgress.

Record t := mk {
  total : nat;
  completed : nat;
  inProgress : nat;
  pending : nat;
  delayed : nat
}.

End MilestoneProgress.



(** ** Further notions used in the statements *)

(** The score of a stored response lies between [0] and its weight. *)
Definition scored_within (r : QuestionResponse.t) : Prop :=
  (0 <= QuestionResponse.score r)%Q
  /\ (QuestionResponse.score r <= QuestionResponse.weight r)%Q.

(** Every weight that is present is [0] or more. *)
Definition nonneg_weights (responses : list ResponseInput.t) : Prop :=
  Forall (fun r => forall w, ResponseInput.weight r = Some w -> (0 <= w)%Q)
         responses.


(** The derived fields of a questionnaire are those of its responses. *)
Definition derived_from_responses (q : Questionnaire.t) : Prop :=
  let responses := Questionnaire.responses q in
  Questionnaire.overallScore q = compute_overallScore responses
  /\ Questionnaire.categoryScores q
     = compute_categoryScores (ByCategory.const 0%Z) responses
  /\ Questionnaire.maturityLevel q
     = getMaturityLevel (Questionnaire.overallScore q)
  /\ Questionnaire.totalQuestions q = length responses
  /\ Questionnaire.answeredQuestions q = count_answered responses.

(** The place of a tier in the order Critique, Basique, Intermédiaire,
    Avancé, Excellence. *)
Definition tier_rank (level : string) : nat :=
  if String.eqb level "Excellence" then 4
  else if String.eqb level "Avancé" then 3
  else if String.eqb level "Intermédiaire" then 2
  else if String.eqb level "Basique" then 1
  else 0.

(** A text in ASCII: every byte is a character. *)
Definition ascii_text (s : string) : Prop :=
  forallb (fun c => (nat_of_ascii c <? 128)%nat) (String.list_ascii_of_string s)
  = true.

(** What identifies a task, whatever its status. *)
Definition task_identity (task : Task.t)
  : ObjectId * string * string * Category.t * string :=
  (Task._id task, Task.title task, Task.description task,
   Task.category task, Task.priority task).

(** The user owns the document of that owner, or is an administrator. *)
Definition authorised (user : User.t) (owner : ObjectId) : Prop :=
  owner = User._id user \/ User.role user = "admin".

(** [castArray] as a recursion over the array, from index [n]. *)
Fixpoint castFrom {A B} (cast : ObjectId -> A -> option B)
    (ids : nat -> ObjectId) (n : nat) (l : list A) : option (list B) :=
  match l with
  | [] => Some []
  | x :: l =>
      match cast (ids n) x, castFrom cast ids (S n) l with
      | Some y, Some ys => Some (y :: ys)
      | _, _ => None
      end
  end.

(** Two further roadmaps beside [sample_roadmap], of another owner. *)
Definition sample_other_roadmap : Roadmap.t :=
  Roadmap.mk "r2" "user-2" "q-2" "Second roadmap" "Of another owner"
    "Critique" "Basique" "3-6 months" "Low" []
    [ sample_task "t1" Category.Act TaskStatus.NotStarted None ] []
    (Progress.mk 0 (ByCategory.mk 0 0 0 0)%Z) "Draft" 0%Z.

Definition sample_roadmaps : list Roadmap.t :=
  [sample_other_roadmap; sample_roadmap].

(** A stored questionnaire, its derived fields as the hook computes
    them. *)
Definition sample_stored_questionnaire : Questionnaire.t :=
  questionnaire_preSave true
    (Questionnaire.mk "q-7" "user-1"
       [ QuestionResponse.mk "q1" "Is a security policy defined?"
           Category.Plan "5.2" 10 true ResponseValue.Partiellement 5;
         QuestionResponse.mk "q2" "Are internal audits planned?"
           Category.Check "9.2" 30 false ResponseValue.Oui 30 ]
       0 (ByCategory.const 0%Z) (getMaturityLevel 0) [] 0 0
       0 "completed" "" []).



(** ** Further samples *)

Definition sample_responses : list QuestionResponse.t :=
  [ QuestionResponse.mk "q1" "Is a security policy defined?"
      Category.Plan "5.2" 10 true ResponseValue.Partiellement 5;
    QuestionResponse.mk "q2" "Are internal audits planned?"
      Category.Check "9.2" 30 false ResponseValue.Oui 30 ].

Definition sample_admin : User.t := User.mk "user-9" "admin".

Definition sample_stranger : User.t := User.mk "user-3" "user".

Definition sample_long_question : string :=
  Nat.iter 24 (fun s => "Why not? " ++ s) "Why?".

Definition sample_long_questionnaire : Questionnaire.t :=
  Questionnaire.mk "q-2" "user-1" [] 0 (ByCategory.mk 80 80 80 80)%Z
    (getMaturityLevel 0)
    [ NonConformity.mk sample_long_question "5.2" "No policy" ]
    0 0 0 "completed" "" [].

Definition sample_plain_questionnaire : Questionnaire.t :=
  Questionnaire.mk "q-3" "user-1" [] 0 (ByCategory.mk 50 30 80 60)%Z
    (getMaturityLevel 0) [] 0 0 0 "completed" "" [].

(** An update that supplies the responses of [sample_body]. *)
Definition sample_rescore : UpdateBody.t :=
  UpdateBody.mk (Some (SubmitBody.responses sample_body)) None None None.

Definition sample_valid_metadata : MetadataBody.t :=
  MetadataBody.mk (Some "  Roadmap 2027 ") None (Some "On Hold") None None
    None.


(** * Properties *)

(** ** Comparisons of numbers *)

Lemma ge_true (x y : Q) : Js.ge x y = true <-> (y <= x)%Q.
Proof. unfold Js.ge. apply Qle_bool_iff. Qed.

Lemma ge_false (x y : Q) : Js.ge x y = false <-> (x < y)%Q.
Proof.
  unfold Js.ge. split.
  - intros H. apply Qnot_le_lt. intros Hle.
    apply Qle_bool_iff in Hle. congruence.
  - intros H. destruct (Qle_bool y x) eqn:E; [|reflexivity].
    apply Qle_bool_iff in E. exfalso. exact (Qlt_not_le _ _ H E).
Qed.

Lemma gt_true (x y : Q) : Js.gt x y = true <-> (y < x)%Q.
Proof.
  unfold Js.gt. rewrite negb_true_iff. exact (ge_false y x).
Qed.

(** ** Scoring of a response *)

Lemma score_on_submit_value (r : ResponseInput.t) (v : ResponseValue.t) (w : Q) :
  ResponseInput.response r = ResponseValue.to_string v ->
  ResponseInput.weight r = Some w ->
  score_on_submit r = Some (spec_score v w).
Proof.
  intros Hv Hw. unfold score_on_submit. rewrite Hv, Hw.
  destruct v; reflexivity.
Qed.

Lemma score_paths_agree (r : ResponseInput.t) :
  score_on_update r = score_on_submit r.
Proof. reflexivity. Qed.

Lemma of_string_to_string (v : ResponseValue.t) :
  ResponseValue.of_string (ResponseValue.to_string v) = Some v.
Proof. destruct v; reflexivity. Qed.

(** The element schema stores the score it is given. *)
Lemma castResponse_score (r : ResponseInput.t) (v : ResponseValue.t) (w : Q)
    (stored : QuestionResponse.t) :
  ResponseInput.response r = ResponseValue.to_string v ->
  ResponseInput.weight r = Some w ->
  castResponse (ScoredInput.mk r (score_on_submit r)) = Some stored ->
  QuestionResponse.response stored = v
  /\ QuestionResponse.weight stored = w
  /\ QuestionResponse.score stored = spec_score v w.
Proof.
  intros Hv Hw. unfold castResponse.
  cbn [ScoredInput.input ScoredInput.score].
  rewrite (score_on_submit_value r v w Hv Hw), Hv, Hw, of_string_to_string.
  repeat match goal with
         | |- context [if ?b then None else _] => destruct b
         end; try discriminate.
  destruct (Category.of_string _); [|discriminate].
  intros H. injection H as <-. repeat split.
Qed.

(** C1. A response of weight [w > 0] scores [w] when its value is Oui,
    [w * 0.5] (which is [w / 2]) when it is Partiellement and [0] when it
    is Non: the scored array of the submission handler and the one of
    the update handler both carry that score at the position of the
    response, and it is the score of the element that either handler
    stores. *)
Theorem response_score_on_both_paths
    (responses : list ResponseInput.t) (i : nat) (r : ResponseInput.t)
    (v : ResponseValue.t) (w : Q) :
  responses !! i = Some r ->
  ResponseInput.response r = ResponseValue.to_string v ->
  ResponseInput.weight r = Some w ->
  (0 < w)%Q ->
  scoredResponses_submit responses !! i
    = Some (ScoredInput.mk r (Some (spec_score v w)))
  /\ scoredResponses_update responses !! i
    = Some (ScoredInput.mk r (Some (spec_score v w)))
  /\ (forall stored,
        castResponse (ScoredInput.mk r (score_on_submit r)) = Some stored
        \/ castResponse (ScoredInput.mk r (score_on_update r)) = Some stored ->
        QuestionResponse.score stored = spec_score v w)
  /\ (spec_score v w ==
      match v with
      | ResponseValue.Oui => w
      | ResponseValue.Partiellement => w / 2
      | ResponseValue.Non => 0
      end)%Q.
Proof.
  intros Hi Hv Hw _.
  unfold scoredResponses_submit, scoredResponses_update.
  rewrite !list_lookup_fmap, Hi.
  cbn [fmap option_fmap option_map].
  change (score_on_update r) with (score_on_submit r).
  rewrite (score_on_submit_value r v w Hv Hw).
  split; [reflexivity|]. split; [reflexivity|]. split.
  - intros stored [H|H];
      rewrite <- (score_on_submit_value r v w Hv Hw) in H;
      apply (castResponse_score r v w stored Hv Hw H).
  - destruct v; cbn [spec_score]; reflexivity.
Qed.

Lemma response_score_on_both_paths_witness :
  let r := ResponseInput.mk "q1" "Is there a policy?" "Plan" "5.2"
             (Some 10%Q) (Some true) "Partiellement" in
  scoredResponses_submit [r] !! 0%nat
    = Some (ScoredInput.mk r (Some (10 * (1 # 2))%Q))
  /\ scoredResponses_update [r] !! 0%nat
    = Some (ScoredInput.mk r (Some (10 * (1 # 2))%Q)).
Proof.
  intros r.
  destruct (response_score_on_both_paths [r] 0 r
              ResponseValue.Partiellement 10%Q)
    as (H1 & H2 & _); try reflexivity.
  split; [exact H1 | exact H2].
Defined.

(** ** Maturity tiers *)

Ltac tier :=
  repeat match goal with
  | H : Js.ge _ _ = true |- _ => apply ge_true in H
  | H : Js.ge _ _ = false |- _ => apply ge_false in H
  end;
  intros; first [reflexivity | exfalso; lra].

(** C2. On a score in [0, 100] the classification takes the first tier,
    from the top, whose lower bound the score reaches: Excellence from
    90, Avancé from 75, Intermédiaire from 60, Basique from 40, Critique
    below 40; so 90 is Excellence, 89.9 Avancé, 40 Basique and 39.9
    Critique. *)
Theorem maturity_tier_by_lower_bound (s : Q) :
  (0 <= s)%Q -> (s <= 100)%Q ->
  let level := MaturityLevel.level (getMaturityLevel s) in
  ((90 <= s)%Q -> level = "Excellence")
  /\ ((75 <= s)%Q -> (s < 90)%Q -> level = "Avancé")
  /\ ((60 <= s)%Q -> (s < 75)%Q -> level = "Intermédiaire")
  /\ ((40 <= s)%Q -> (s < 60)%Q -> level = "Basique")
  /\ ((s < 40)%Q -> level = "Critique")
  /\ MaturityLevel.level (getMaturityLevel 90) = "Excellence"
  /\ MaturityLevel.level (getMaturityLevel 89.9) = "Avancé"
  /\ MaturityLevel.level (getMaturityLevel 40) = "Basique"
  /\ MaturityLevel.level (getMaturityLevel 39.9) = "Critique".
Proof.
  intros _ _ level. subst level. unfold getMaturityLevel.
  destruct (Js.ge s 90) eqn:E90; [|destruct (Js.ge s 75) eqn:E75;
    [|destruct (Js.ge s 60) eqn:E60; [|destruct (Js.ge s 40) eqn:E40]]];
  cbn [MaturityLevel.level];
  (split; [|split; [|split; [|split; [|split; [|repeat split]]]]]);
  try (intros; reflexivity).
  all: tier.
Qed.

Lemma maturity_tier_by_lower_bound_witness :
  MaturityLevel.level (getMaturityLevel 80) = "Avancé".
Proof.
  assert (H0 : (0 <= 80)%Q) by (unfold Qle; simpl; lia).
  assert (H1 : (80 <= 100)%Q) by (unfold Qle; simpl; lia).
  destruct (maturity_tier_by_lower_bound 80 H0 H1) as (_ & H & _).
  apply H; [unfold Qle | unfold Qlt]; simpl; lia.
Defined.

(** ** Progress of a roadmap *)

Lemma Math_round_round0 (x : Q) : round0 x (Js.Math_round x).
Proof.
  unfold round0, Js.Math_round.
  pose proof (Qfloor_le (x + (1 # 2))) as Hle.
  pose proof (Qlt_floor (x + (1 # 2))) as Hlt.
  rewrite inject_Z_plus in Hlt. change (inject_Z 1) with 1%Q in Hlt.
  set (n := inject_Z (Qfloor (x + (1 # 2)))) in *.
  split; lra.
Qed.

Lemma round0_unique (x : Q) (n m : Z) : round0 x n -> round0 x m -> n = m.
Proof.
  intros [Hn1 Hn2] [Hm1 Hm2].
  assert (H1 : (inject_Z n < inject_Z m + 1)%Q) by lra.
  assert (H2 : (inject_Z m < inject_Z n + 1)%Q) by lra.
  change 1%Q with (inject_Z 1) in H1, H2.
  rewrite <- inject_Z_plus in H1, H2.
  rewrite <- Zlt_Qlt in H1, H2. lia.
Qed.

Lemma get_set_eq {A} (c : Category.t) (a : A) (o : ByCategory.t A) :
  ByCategory.get c (ByCategory.set c a o) = a.
Proof. destruct c; reflexivity. Qed.

Lemma get_set_ne {A} (c c' : Category.t) (a : A) (o : ByCategory.t A) :
  c <> c' -> ByCategory.get c (ByCategory.set c' a o) = ByCategory.get c o.
Proof. destruct c, c'; intros H; try reflexivity; congruence. Qed.

Lemma is_completed_true (t : Task.t) :
  is_completed t = true <-> Task.status t = TaskStatus.Completed.
Proof. unfold is_completed. apply bool_decide_eq_true. Qed.

Lemma completed_filter_length (tasks : list Task.t) :
  length (filter (fun t => is_completed t = true) tasks) = completedCount tasks.
Proof.
  unfold completedCount. f_equal. apply list_filter_iff.
  intros t. apply is_completed_true.
Qed.

(** The first pass counts, per category, the completed tasks. *)
Lemma count_completed_from (tasks : list Task.t) (acc : ByCategory.t Z)
    (c : Category.t) :
  ByCategory.get c
    (fold_left
       (fun categoryProgress task =>
          if is_completed task then
            ByCategory.set (Task.category task)
              (ByCategory.get (Task.category task) categoryProgress + 1)%Z
              categoryProgress
          else categoryProgress)
       tasks acc)
  = (ByCategory.get c acc + Z.of_nat (completedCount_in c tasks))%Z.
Proof.
  revert acc. induction tasks as [|t tasks IH]; intros acc.
  - cbn. lia.
  - cbn [fold_left]. rewrite IH. unfold completedCount_in.
    rewrite filter_cons.
    destruct (is_completed t) eqn:E.
    + apply is_completed_true in E.
      destruct (decide (Task.category t = c)) as [Hc|Hc].
      * rewrite decide_True by auto. subst c. rewrite get_set_eq.
        cbn [length]. lia.
      * rewrite decide_False by tauto. rewrite get_set_ne by congruence.
        reflexivity.
    + rewrite decide_False; [reflexivity|].
      intros [_ H]. apply is_completed_true in H. congruence.
Qed.

(** The second pass counts, per category, all tasks. *)
Lemma count_all_from (tasks : list Task.t) (acc : ByCategory.t Z)
    (c : Category.t) :
  ByCategory.get c
    (fold_left
       (fun categoryCounts task =>
          ByCategory.set (Task.category task)
            (ByCategory.get (Task.category task) categoryCounts + 1)%Z
            categoryCounts)
       tasks acc)
  = (ByCategory.get c acc + Z.of_nat (totalCount_in c tasks))%Z.
Proof.
  revert acc. induction tasks as [|t tasks IH]; intros acc.
  - cbn. lia.
  - cbn [fold_left]. rewrite IH. unfold totalCount_in.
    rewrite filter_cons.
    destruct (decide (Task.category t = c)) as [Hc|Hc].
    + subst c. rewrite get_set_eq. cbn [length]. lia.
    + rewrite get_set_ne by congruence. reflexivity.
Qed.

Lemma count_completed_get (tasks : list Task.t) (c : Category.t) :
  ByCategory.get c (count_completed tasks)
  = Z.of_nat (completedCount_in c tasks).
Proof.
  unfold count_completed. rewrite count_completed_from.
  destruct c; reflexivity.
Qed.

Lemma count_all_get (tasks : list Task.t) (c : Category.t) :
  ByCategory.get c (count_all tasks) = Z.of_nat (totalCount_in c tasks).
Proof.
  unfold count_all. rewrite count_all_from. destruct c; reflexivity.
Qed.

(** The third pass turns each counter into its percentage. *)
Lemma categoryProgress_get (tasks : list Task.t) (c : Category.t) :
  ByCategory.get c (categoryProgress tasks)
  = if (0 <? totalCount_in c tasks)%nat then
      Js.Math_round
        (percentage (completedCount_in c tasks) (totalCount_in c tasks))
    else 0%Z.
Proof.
  unfold categoryProgress, percentage.
  rewrite <- !count_completed_get, <- (Nat2Z.id (totalCount_in c tasks)).
  rewrite <- !count_all_get.
  generalize (count_all tasks) as n, (count_completed tasks) as k.
  intros n k.
  assert (Hpos : forall z : Z,
             (0 <? Z.to_nat z)%nat = (z >? 0)%Z).
  { intros z. destruct (Z.gtb_spec z 0) as [H|H].
    - apply Nat.ltb_lt. lia.
    - apply Nat.ltb_ge. lia. }
  rewrite Hpos.
  assert (Hid : forall z : Z, (z >? 0)%Z = true -> Z.of_nat (Z.to_nat z) = z).
  { intros z H. apply Z.gtb_lt in H. lia. }
  destruct c; cbn [fold_left Category.keys ByCategory.get ByCategory.set
                   ByCategory.Plan ByCategory.Do ByCategory.Check
                   ByCategory.Act];
    match goal with
    | |- (if ?b then _ else _) = _ =>
        destruct b eqn:E; [rewrite (Hid _ E)|]; reflexivity
    end.
Qed.


(** ** Updating the status of a task *)

Lemma preSave_tasks (modified : bool) (now : Date) (r : Roadmap.t) :
  Roadmap.tasks (roadmap_preSave modified now r) = Roadmap.tasks r.
Proof. destruct modified; reflexivity. Qed.

Lemma tasks_id_Some (taskId : ObjectId) (tasks : list Task.t) (i : nat)
    (task : Task.t) :
  tasks_id taskId tasks = Some (i, task) <->
  tasks !! i = Some task /\ Task._id task = taskId
  /\ forall j t, tasks !! j = Some t -> (j < i)%nat -> Task._id t <> taskId.
Proof.
  unfold tasks_id.
  exact (list_find_Some (fun t => Task._id t = taskId) tasks i task).
Qed.

Lemma tasks_id_None (taskId : ObjectId) (tasks : list Task.t) :
  tasks_id taskId tasks = None <->
  forall t, t ∈ tasks -> Task._id t <> taskId.
Proof.
  unfold tasks_id. rewrite list_find_None, Forall_forall. reflexivity.
Qed.

(** Replacing the task found by one with the same identifier leaves it
    the task that the identifier resolves to. *)
Lemma tasks_id_insert (taskId : ObjectId) (tasks : list Task.t) (i : nat)
    (task task' : Task.t) :
  tasks_id taskId tasks = Some (i, task) ->
  Task._id task' = taskId ->
  tasks_id taskId (<[i := task']> tasks) = Some (i, task').
Proof.
  rewrite !tasks_id_Some. intros (Hi & _ & Hfirst) Hid.
  split; [|split; [exact Hid|]].
  - apply list_lookup_insert_eq. eapply lookup_lt_Some, Hi.
  - intros j t Hj Hlt. rewrite list_lookup_insert_ne in Hj by lia.
    eapply Hfirst; eauto.
Qed.

Lemma assign_status_id (status : TaskStatus.t) (now : Date) (task : Task.t) :
  Task._id (assign_status status now task) = Task._id task.
Proof. unfold assign_status. case_bool_decide; reflexivity. Qed.

Lemma assign_status_status (status : TaskStatus.t) (now : Date)
    (task : Task.t) :
  Task.status (assign_status status now task) = status.
Proof. unfold assign_status. case_bool_decide; reflexivity. Qed.

Lemma assign_status_category (status : TaskStatus.t) (now : Date)
    (task : Task.t) :
  Task.category (assign_status status now task) = Task.category task.
Proof. unfold assign_status. case_bool_decide; reflexivity. Qed.

(** What a call that finds its task stores. *)
Lemma updateTaskStatus_found (r : Roadmap.t) (taskId : ObjectId) (i : nat)
    (task : Task.t) (status : TaskStatus.t) (now : Date) :
  tasks_id taskId (Roadmap.tasks r) = Some (i, task) ->
  fst (updateTaskStatus taskId status now r) = None
  /\ Roadmap.tasks (snd (updateTaskStatus taskId status now r))
     = <[i := assign_status status now task]> (Roadmap.tasks r).
Proof.
  intros H. unfold updateTaskStatus. rewrite H. cbn [fst snd].
  rewrite preSave_tasks. split; reflexivity.
Qed.

(** C6. When no task of the roadmap has the identifier, the call fails
    with the error 'Task not found' and the roadmap, its task sequence
    and its progress included, is as it was. *)
Theorem updateTaskStatus_unknown_task (r : Roadmap.t) (taskId : ObjectId)
    (status : TaskStatus.t) (now : Date) :
  (forall t, t ∈ Roadmap.tasks r -> Task._id t <> taskId) ->
  updateTaskStatus taskId status now r = (Some TaskNotFound, r)
  /\ Roadmap.tasks (snd (updateTaskStatus taskId status now r))
     = Roadmap.tasks r
  /\ Roadmap.progress (snd (updateTaskStatus taskId status now r))
     = Roadmap.progress r.
Proof.
  intros H. apply tasks_id_None in H.
  unfold updateTaskStatus. rewrite H. repeat split.
Qed.

(** C7. On the task the identifier resolves to, a call with the status
    Completed stores the status Completed and the current time as
    [completedDate]; a second such call, at a later reading of the clock,
    stores that later time; and a call with another status leaves
    [completedDate] as it was, so the method writes [completedDate]
    exactly when the new status is Completed. *)
Theorem updateTaskStatus_completed (r : Roadmap.t) (taskId : ObjectId)
    (i : nat) (task : Task.t) (now : Date) :
  tasks_id taskId (Roadmap.tasks r) = Some (i, task) ->
  let done := updateTaskStatus taskId TaskStatus.Completed now r in
  fst done = None
  /\ (exists task',
        tasks_id taskId (Roadmap.tasks (snd done)) = Some (i, task')
        /\ Task.status task' = TaskStatus.Completed
        /\ Task.completedDate task' = Some now)
  /\ (forall later : Date,
        let again :=
          updateTaskStatus taskId TaskStatus.Completed later (snd done) in
        fst again = None
        /\ exists task'',
             tasks_id taskId (Roadmap.tasks (snd again)) = Some (i, task'')
             /\ Task.status task'' = TaskStatus.Completed
             /\ Task.completedDate task'' = Some later)
  /\ (forall status : TaskStatus.t,
        status <> TaskStatus.Completed ->
        exists task',
          tasks_id taskId
            (Roadmap.tasks (snd (updateTaskStatus taskId status now r)))
          = Some (i, task')
          /\ Task.status task' = status
          /\ Task.completedDate task' = Task.completedDate task).
Proof.
  intros Hfind done.
  assert (Hid : Task._id task = taskId) by (apply tasks_id_Some in Hfind; tauto).
  destruct (updateTaskStatus_found r taskId i task TaskStatus.Completed now
              Hfind) as [Hok Htasks].
  fold done in Hok, Htasks.
  assert (Hfind' : tasks_id taskId (Roadmap.tasks (snd done))
                   = Some (i, assign_status TaskStatus.Completed now task)).
  { rewrite Htasks. apply (tasks_id_insert _ _ _ task); [exact Hfind|].
    rewrite assign_status_id. exact Hid. }
  split; [exact Hok|]. split; [|split].
  - eexists. split; [exact Hfind'|]. split; reflexivity.
  - intros later again.
    destruct (updateTaskStatus_found (snd done) taskId i _
                TaskStatus.Completed later Hfind') as [Hok2 Htasks2].
    fold again in Hok2, Htasks2.
    split; [exact Hok2|].
    eexists. split.
    { rewrite Htasks2. eapply tasks_id_insert; [exact Hfind'|].
      rewrite !assign_status_id. exact Hid. }
    split; reflexivity.
  - intros status Hne.
    destruct (updateTaskStatus_found r taskId i task status now Hfind)
      as [_ Htasks3].
    exists (assign_status status now task).
    split; [|split].
    + rewrite Htasks3. eapply tasks_id_insert; [exact Hfind|].
      rewrite assign_status_id. exact Hid.
    + apply assign_status_status.
    + unfold assign_status. rewrite bool_decide_eq_false_2 by exact Hne.
      reflexivity.
Qed.

(** C10. A task that is Completed with a [completedDate], when its status
    is set to one of the other three, changes in its status alone: the
    [completedDate] stays, and so does every other field; the other tasks
    of the roadmap stay as they are. *)
Theorem updateTaskStatus_keeps_completedDate (r : Roadmap.t)
    (taskId : ObjectId) (i : nat) (task : Task.t) (d : Date)
    (status : TaskStatus.t) (now : Date) :
  tasks_id taskId (Roadmap.tasks r) = Some (i, task) ->
  Task.status task = TaskStatus.Completed ->
  Task.completedDate task = Some d ->
  status <> TaskStatus.Completed ->
  let r' := snd (updateTaskStatus taskId status now r) in
  Roadmap.tasks r' !! i
  = Some (Task.mk (Task._id task) (Task.title task) (Task.description task)
            (Task.category task) (Task.priority task)
            (Task.estimatedEffort task) (Task.cost task) status
            (Task.startDate task) (Task.dueDate task) (Some d)
            (Task.assignedTo task) (Task.notes task))
  /\ (forall j, j <> i -> Roadmap.tasks r' !! j = Roadmap.tasks r !! j)
  /\ length (Roadmap.tasks r') = length (Roadmap.tasks r).
Proof.
  intros Hfind _ Hdate Hne r'.
  destruct (updateTaskStatus_found r taskId i task status now Hfind)
    as [_ Htasks].
  fold r' in Htasks. rewrite Htasks.
  apply tasks_id_Some in Hfind. destruct Hfind as (Hi & _).
  split; [|split].
  - rewrite list_lookup_insert_eq by (eapply lookup_lt_Some, Hi).
    unfold assign_status. rewrite bool_decide_eq_false_2 by exact Hne.
    unfold Task.set_status. rewrite Hdate. reflexivity.
  - intros j Hj. apply list_lookup_insert_ne. congruence.
  - apply length_insert.
Qed.

(** ** The stored progress *)

Lemma preSave_modified_consistent (now : Date) (r : Roadmap.t) :
  consistent (roadmap_preSave true now r).
Proof. reflexivity. Qed.

Lemma generate_consistent newId taskIds milestoneIds now user body
    questionnaire r :
  generate newId taskIds milestoneIds now user body questionnaire = Some r ->
  consistent r.
Proof.
  unfold generate. intros H.
  destruct (negb (validate_create body)); [discriminate|].
  destruct (negb (isIn _ _)); [discriminate|].
  destruct (negb (forallb _ _)); [discriminate|].
  destruct (castArray castTask taskIds (initialTasks questionnaire))
    as [tasks|]; [|discriminate].
  destruct (castArray castMilestone milestoneIds _) as [milestones|];
    [|discriminate].
  cbn in H. injection H as <-. apply preSave_modified_consistent.
Qed.

(** Every mutation keeps the stored progress in agreement with the
    tasks: the hook recomputes it when [tasks] is modified, and the
    tasks are the same when it is not or when the method throws. *)
Lemma mutate_consistent (m : Mutation) (now : Date) (r : Roadmap.t) :
  consistent r -> consistent (snd (mutate m now r)).
Proof.
  intros Hr. destruct m as [newId d | taskId status | newId d | body];
    cbn [mutate].
  - exact Hr.
  - unfold updateTaskStatus.
    destruct (tasks_id taskId (Roadmap.tasks r)) as [[i task]|] eqn:E;
      [|exact Hr].
    cbn [snd]. case_bool_decide as Hmod.
    + apply preSave_modified_consistent.
    + rewrite Hmod.
      apply tasks_id_Some in E. destruct E as (Hi & _).
      cbn [roadmap_preSave]. unfold consistent.
      cbn [Roadmap.set_tasks Roadmap.progress Roadmap.tasks].
      rewrite (list_insert_id _ _ _ Hi). exact Hr.
  - exact Hr.
  - unfold updateMetadata. destruct (validate_metadata body); [|exact Hr].
    destruct (metadata_saves body); exact Hr.
Qed.

(** On any document, a status update that changes the task it finds
    leaves the recomputed progress behind. *)
Lemma task_mutation_recomputes (r : Roadmap.t) (now : Date)
    (taskId : ObjectId) (status : TaskStatus.t) (i : nat) (task : Task.t) :
  tasks_id taskId (Roadmap.tasks r) = Some (i, task) ->
  assign_status status now task <> task ->
  consistent (snd (updateTaskStatus taskId status now r)).
Proof.
  intros Hfind Hne. unfold updateTaskStatus.
  rewrite Hfind. cbn [snd]. rewrite bool_decide_eq_true_2 by exact Hne.
  apply preSave_modified_consistent.
Qed.

Lemma reachable_consistent (r : Roadmap.t) : reachable r -> consistent r.
Proof.
  induction 1 as [? ? ? ? ? ? ? r H | m now r _ IH].
  - eapply generate_consistent, H.
  - apply mutate_consistent, IH.
Qed.

(** C4. On every roadmap the system holds, after each of the exposed
    mutations (adding a task, updating the status of a task, adding a
    milestone, updating the metadata) the stored progress is the
    recomputation from the tasks the roadmap then has; and a [progress]
    property that a client puts in the body of a metadata update changes
    nothing of what is stored or answered. *)
Theorem stored_progress_is_recomputed (r : Roadmap.t) (m : Mutation)
    (now : Date) :
  reachable r ->
  let r' := snd (mutate m now r) in
  Roadmap.progress r' = recompute (Roadmap.tasks r')
  /\ (forall (title description status estimatedTimeline totalEstimatedCost
               : option string) (supplied : option Progress.t),
        mutate (UpdateMetadata
                  (MetadataBody.mk title description status estimatedTimeline
                     totalEstimatedCost supplied)) now r
        = mutate (UpdateMetadata
                    (MetadataBody.mk title description status
                       estimatedTimeline totalEstimatedCost None)) now r).
Proof.
  intros Hr r'. split.
  - apply mutate_consistent, reachable_consistent, Hr.
  - intros. reflexivity.
Qed.

(** ** Generation of the initial tasks *)

Lemma fold_left_push {A B} (f : A -> B) (l : list A) (init : list B) :
  fold_left (fun acc x => (acc ++ [f x])%list) l init
  = (init ++ (f <$> l))%list.
Proof.
  revert init. induction l as [|x l IH]; intros init; cbn.
  - symmetry. apply app_nil_r.
  - rewrite IH, <- app_assoc. reflexivity.
Qed.

Lemma initialTasks_eq (q : Questionnaire.t) :
  initialTasks q
  = ((nonConformity_task q <$> Questionnaire.majorNonConformities q)
     ++ lowScore_tasks (Questionnaire.categoryScores q))%list.
Proof.
  unfold initialTasks.
  rewrite (fold_left_push (nonConformity_task q)). cbn [app].
  generalize (nonConformity_task q <$> Questionnaire.majorNonConformities q).
  intros l. unfold lowScore_tasks, ByCategory.entries.
  cbn [map Category.keys fold_left].
  repeat match goal with
         | |- context [(?s <? 60)%Z] => destruct (s <? 60)%Z
         end;
    cbn [app]; rewrite <- ?app_assoc; cbn [app]; rewrite ?app_nil_r;
    reflexivity.
Qed.

Lemma find_first {A} (f : A -> bool) (l : list A) (j : nat) (x : A) :
  l !! j = Some x -> f x = true ->
  (forall k y, (k < j)%nat -> l !! k = Some y -> f y = false) ->
  find f l = Some x.
Proof.
  revert j. induction l as [|a l IH]; intros j Hj Hx Hfirst.
  - discriminate.
  - destruct j as [|j]; cbn in Hj |- *.
    + injection Hj as ->. rewrite Hx. reflexivity.
    + rewrite (Hfirst 0%nat a) by (lia || reflexivity).
      apply (IH j Hj Hx). intros k y Hk Hy.
      apply (Hfirst (S k) y); [lia | exact Hy].
Qed.

Lemma find_no_match {A} (f : A -> bool) (l : list A) :
  (forall x, x ∈ l -> f x = false) -> find f l = None.
Proof.
  induction l as [|a l IH]; intros H; cbn; [reflexivity|].
  rewrite (H a) by apply list_elem_of_here.
  apply IH. intros x Hx. apply H, list_elem_of_further, Hx.
Qed.

Lemma category_truthy (c : Category.t) :
  Js.truthy (Category.to_string c) = true.
Proof. destruct c; reflexivity. Qed.

Lemma nonConformity_category_first (q : Questionnaire.t)
    (nc : NonConformity.t) (j : nat) (resp : QuestionResponse.t) :
  Questionnaire.responses q !! j = Some resp ->
  QuestionResponse.clause resp = NonConformity.clause nc ->
  (forall k resp', (k < j)%nat ->
     Questionnaire.responses q !! k = Some resp' ->
     QuestionResponse.clause resp' <> NonConformity.clause nc) ->
  nonConformity_category q nc
  = Category.to_string (QuestionResponse.category resp).
Proof.
  intros Hj Hclause Hfirst. unfold nonConformity_category.
  rewrite (find_first _ _ j resp Hj).
  - cbn [option_map Js.or_default]. rewrite category_truthy. reflexivity.
  - apply String.eqb_eq, Hclause.
  - intros k y Hk Hy. apply String.eqb_neq. eapply Hfirst; eauto.
Qed.

Lemma nonConformity_category_default (q : Questionnaire.t)
    (nc : NonConformity.t) :
  (forall resp, resp ∈ Questionnaire.responses q ->
     QuestionResponse.clause resp <> NonConformity.clause nc) ->
  nonConformity_category q nc = "Plan".
Proof.
  intros H. unfold nonConformity_category. rewrite find_no_match.
  - reflexivity.
  - intros resp Hresp. apply String.eqb_neq, H, Hresp.
Qed.

Lemma lowScore_tasks_category (scores : ByCategory.t Z) (c : Category.t) :
  filter (fun t => TaskData.category t = Category.to_string c)
         (lowScore_tasks scores)
  = if (ByCategory.get c scores <? 60)%Z
    then [lowScore_task c (ByCategory.get c scores)] else [].
Proof.
  unfold lowScore_tasks.
  destruct (ByCategory.get Category.Plan scores <? 60)%Z eqn:E1,
           (ByCategory.get Category.Do scores <? 60)%Z eqn:E2,
           (ByCategory.get Category.Check scores <? 60)%Z eqn:E3,
           (ByCategory.get Category.Act scores <? 60)%Z eqn:E4;
    destruct c; rewrite ?E1, ?E2, ?E3, ?E4; reflexivity.
Qed.

Lemma lowScore_tasks_elem (scores : ByCategory.t Z) (t : TaskData.t) :
  t ∈ lowScore_tasks scores ->
  exists c, (ByCategory.get c scores < 60)%Z
            /\ t = lowScore_task c (ByCategory.get c scores).
Proof.
  unfold lowScore_tasks. rewrite !elem_of_app.
  intros [H|[H|[H|H]]];
    match type of H with
    | _ ∈ (if (ByCategory.get ?c _ <? 60)%Z then _ else _) =>
        destruct (Z.ltb_spec (ByCategory.get c scores) 60) as [Hlt|Hge];
        [apply list_elem_of_singleton in H; exists c; auto
        |apply not_elem_of_nil in H; contradiction]
    end.
Qed.

(** C8. The initial tasks are, in this order: for each entry of
    [majorNonConformities], at its position, one task of priority
    Critical, titled 'Resolve: ' followed by the question, with effort
    '1-2 weeks', cost 'Medium' and status 'Not Started', its category being
    that of the first response that carries the clause of the entry; then,
    for each category with a score below 60 and for no other, one task of
    that category, of priority 'High' when the score is below 40 and
    'Medium' otherwise, with effort '2-4 weeks' and cost 'Medium'. *)
Theorem initialTasks_generated (q : Questionnaire.t) :
  exists critical low : list TaskData.t,
    initialTasks q = (critical ++ low)%list
    /\ length critical = length (Questionnaire.majorNonConformities q)
    /\ (forall i nc,
          Questionnaire.majorNonConformities q !! i = Some nc ->
          exists t,
            critical !! i = Some t
            /\ TaskData.priority t = "Critical"
            /\ TaskData.title t = "Resolve: " ++ NonConformity.question nc
            /\ TaskData.estimatedEffort t = "1-2 weeks"
            /\ TaskData.cost t = "Medium"
            /\ TaskData.status t = Some "Not Started"
            /\ (forall j resp,
                  Questionnaire.responses q !! j = Some resp ->
                  QuestionResponse.clause resp = NonConformity.clause nc ->
                  (forall k resp', (k < j)%nat ->
                     Questionnaire.responses q !! k = Some resp' ->
                     QuestionResponse.clause resp'
                     <> NonConformity.clause nc) ->
                  TaskData.category t
                  = Category.to_string (QuestionResponse.category resp)))
    /\ (forall c : Category.t,
          let score := ByCategory.get c (Questionnaire.categoryScores q) in
          if (score <? 60)%Z then
            exists t,
              filter (fun t => TaskData.category t = Category.to_string c) low
              = [t]
              /\ TaskData.priority t
                 = (if (score <? 40)%Z then "High" else "Medium")
              /\ TaskData.estimatedEffort t = "2-4 weeks"
              /\ TaskData.cost t = "Medium"
          else
            filter (fun t => TaskData.category t = Category.to_string c) low
            = [])
    /\ (forall t, t ∈ low ->
          exists c, TaskData.category t = Category.to_string c).
Proof.
  exists (nonConformity_task q <$> Questionnaire.majorNonConformities q),
         (lowScore_tasks (Questionnaire.categoryScores q)).
  split; [apply initialTasks_eq|].
  split; [apply length_fmap|].
  split; [|split].
  - intros i nc Hi. exists (nonConformity_task q nc).
    rewrite list_lookup_fmap, Hi.
    repeat (split; [reflexivity|]).
    intros j resp Hj Hclause Hfirst.
    apply (nonConformity_category_first q nc j resp Hj Hclause Hfirst).
  - intros c score. rewrite lowScore_tasks_category. fold score.
    destruct (score <? 60)%Z; [|reflexivity].
    eexists. split; [reflexivity|]. repeat split.
  - intros t Ht. apply lowScore_tasks_elem in Ht.
    destruct Ht as (c & _ & ->). exists c. reflexivity.
Qed.

(** C9. The task generated from an entry of [majorNonConformities] takes
    the category of the first response whose clause is the clause of the
    entry, and the category 'Plan' when no response has that clause. *)
Theorem nonConformity_task_category (q : Questionnaire.t) (i : nat)
    (nc : NonConformity.t) :
  Questionnaire.majorNonConformities q !! i = Some nc ->
  exists t,
    initialTasks q !! i = Some t
    /\ (forall j resp,
          Questionnaire.responses q !! j = Some resp ->
          QuestionResponse.clause resp = NonConformity.clause nc ->
          (forall k resp', (k < j)%nat ->
             Questionnaire.responses q !! k = Some resp' ->
             QuestionResponse.clause resp' <> NonConformity.clause nc) ->
          TaskData.category t
          = Category.to_string (QuestionResponse.category resp))
    /\ ((forall resp, resp ∈ Questionnaire.responses q ->
           QuestionResponse.clause resp <> NonConformity.clause nc) ->
        TaskData.category t = "Plan").
Proof.
  intros Hi. exists (nonConformity_task q nc). split; [|split].
  - rewrite initialTasks_eq. apply lookup_app_l_Some.
    rewrite list_lookup_fmap, Hi. reflexivity.
  - intros j resp Hj Hclause Hfirst.
    apply (nonConformity_category_first q nc j resp Hj Hclause Hfirst).
  - apply nonConformity_category_default.
Qed.

(** ** Validation of a submission *)









Lemma submit_rejected (user : User.t) (newId : ObjectId) (body : SubmitBody.t)
    (db : list Questionnaire.t) :
  validate_submit body <> [] ->
  submit user newId body db = (ValidationFailed (validate_submit body), db).
Proof.
  intros H. unfold submit. destruct (validate_submit body); congruence.
Qed.







Lemma update_failure_keeps_db (user : User.t) (id : ObjectId)
    (body : UpdateBody.t) (db : list Questionnaire.t) :
  is_failure (fst (update user id body db)) ->
  snd (update user id body db) = db.
Proof.
  unfold update. destruct (validate_update body); [|reflexivity].
  destruct (findQuestionnaire id db) as [[i q]|]; [|reflexivity].
  destruct (_ && _); [reflexivity|].
  destruct (apply_update body q); [|reflexivity].
  cbn. contradiction.
Qed.




(** ** Worked examples *)



Lemma updateTaskStatus_unknown_task_witness :
  updateTaskStatus "t9" TaskStatus.Completed 5000%Z sample_roadmap
  = (Some TaskNotFound, sample_roadmap).
Proof.
  apply (updateTaskStatus_unknown_task sample_roadmap "t9"
           TaskStatus.Completed 5000%Z).
  apply tasks_id_None. reflexivity.
Defined.

Lemma updateTaskStatus_completed_witness :
  exists task',
    tasks_id "t2"
      (Roadmap.tasks
         (snd (updateTaskStatus "t2" TaskStatus.Completed 5000%Z
                 sample_roadmap)))
    = Some (1%nat, task')
    /\ Task.status task' = TaskStatus.Completed
    /\ Task.completedDate task' = Some 5000%Z.
Proof.
  apply (updateTaskStatus_completed sample_roadmap "t2" 1
           (sample_task "t2" Category.Do TaskStatus.NotStarted None) 5000%Z).
  reflexivity.
Defined.

Lemma updateTaskStatus_keeps_completedDate_witness :
  Roadmap.tasks
    (snd (updateTaskStatus "t1" TaskStatus.OnHold 5000%Z sample_roadmap))
  !! 0%nat
  = Some (sample_task "t1" Category.Plan TaskStatus.OnHold (Some 1000%Z)).
Proof.
  apply (updateTaskStatus_keeps_completedDate sample_roadmap "t1" 0
           (sample_task "t1" Category.Plan TaskStatus.Completed (Some 1000%Z))
           1000%Z TaskStatus.OnHold 5000%Z);
    [reflexivity | reflexivity | reflexivity | discriminate].
Defined.

Lemma stored_progress_is_recomputed_witness :
  exists r,
    generate "r1" (sample_ids "t") (sample_ids "m") 1000%Z sample_user
      sample_create sample_questionnaire = Some r
    /\ let r' :=
         snd (mutate (UpdateTaskStatus "t0" TaskStatus.Completed) 5000%Z r) in
       Roadmap.progress r' = recompute (Roadmap.tasks r').
Proof.
  eexists. split; [vm_compute; reflexivity|].
  apply (stored_progress_is_recomputed _
           (UpdateTaskStatus "t0" TaskStatus.Completed) 5000%Z).
  eapply reachable_generate
    with (newId := "r1") (taskIds := sample_ids "t")
         (milestoneIds := sample_ids "m") (now := 1000%Z)
         (user := sample_user) (body := sample_create)
         (questionnaire := sample_questionnaire).
  vm_compute. reflexivity.
Defined.

Lemma nonConformity_task_category_witness :
  exists t,
    initialTasks sample_questionnaire !! 1%nat = Some t
    /\ TaskData.category t = "Plan".
Proof.
  destruct (nonConformity_task_category sample_questionnaire 1
              (NonConformity.mk "Are suppliers assessed?" "8.1"
                 "Supplier risks are not known") eq_refl)
    as (t & Ht & _ & Hdefault).
  exists t. split; [exact Ht|]. apply Hdefault.
  apply Forall_forall. repeat constructor; cbn; discriminate.
Defined.

(** The generated tasks of [sample_questionnaire]: the first entry takes
    the category of the first response with clause 5.2, the second falls
    back to Plan; Plan (50) and Do (30) are below 60. *)
Example initialTasks_sample :
  (fun t => (TaskData.title t, TaskData.category t, TaskData.priority t))
  <$> initialTasks sample_questionnaire
  = [ ("Resolve: Is a security policy defined?", "Do", "Critical");
      ("Resolve: Are suppliers assessed?", "Plan", "Critical");
      ("Improve Plan Category Score", "Plan", "Medium");
      ("Improve Do Category Score", "Do", "High") ].
Proof. vm_compute. reflexivity. Qed.

(** One task of three is completed: 33.  Adding a task throws and
    leaves the three; completing a second one gives two of three, 67. *)
Example progress_scenario :
  recompute sample_tasks = Progress.mk 33 (ByCategory.mk 100 0 0 0)%Z
  /\ addTask "t4" 2000%Z sample_taskData sample_roadmap
     = (Some ModelError, sample_roadmap)
  /\ Roadmap.progress
       (snd (updateTaskStatus "t2" TaskStatus.Completed 3000%Z
               sample_roadmap))
     = Progress.mk 67 (ByCategory.mk 100 100 0 0)%Z.
Proof. vm_compute. repeat split. Qed.

(** Two responses of weight 10 in Plan, one Non and one Oui, supplied
    to an update of a stored questionnaire: the scores are 0 and 10, Plan
    and the overall score are 50, and the tier of 50 is Basique. *)
Example scoring_scenario :
  let changes :=
    UpdateBody.mk
      (Some
         [ ResponseInput.mk "q1" "Is a security policy defined?" "Plan" "5.2"
             (Some 10%Q) (Some true) "Non";
           ResponseInput.mk "q2" "Is the policy communicated?" "Plan" "5.3"
             (Some 10%Q) (Some false) "Oui" ])
      None None None in
  exists q,
    update sample_user "q-7" changes [sample_stored_questionnaire]
    = (Success q, [q])
    /\ QuestionResponse.score <$> Questionnaire.responses q = [0%Q; 10%Q]
    /\ Questionnaire.overallScore q = 50%Q
    /\ Questionnaire.categoryScores q = (ByCategory.mk 50 0 0 0)%Z
    /\ MaturityLevel.level (Questionnaire.maturityLevel q) = "Basique"
    /\ Questionnaire.totalQuestions q = 2%nat
    /\ Questionnaire.answeredQuestions q = 2%nat.
Proof. eexists. split; [vm_compute; reflexivity|]. repeat split. Qed.


(** * Further properties *)

(** ** Rounding *)

Lemma Math_round_mono (x y : Q) :
  (x <= y)%Q -> (Js.Math_round x <= Js.Math_round y)%Z.
Proof.
  intros H. unfold Js.Math_round. apply Qfloor_resp_le. lra.
Qed.

Lemma Math_round_Z (n : Z) : Js.Math_round (inject_Z n) = n.
Proof.
  apply (round0_unique (inject_Z n)); [apply Math_round_round0|].
  unfold round0. split; lra.
Qed.

Lemma Math_round_between (x : Q) (lo hi : Z) :
  (inject_Z lo <= x)%Q -> (x <= inject_Z hi)%Q ->
  (lo <= Js.Math_round x <= hi)%Z.
Proof.
  intros Hlo Hhi. split.
  - rewrite <- (Math_round_Z lo). apply Math_round_mono, Hlo.
  - rewrite <- (Math_round_Z hi). apply Math_round_mono, Hhi.
Qed.

(** A ratio of a part to its whole, as a percentage. *)
Lemma ratio_percent (part whole : Q) :
  (0 <= part)%Q -> (part <= whole)%Q -> (0 < whole)%Q ->
  (0 <= part / whole * 100)%Q /\ (part / whole * 100 <= 100)%Q.
Proof.
  intros H0 Hle Hpos.
  assert (H1 : (0 <= part / whole)%Q).
  { apply Qle_shift_div_l; [exact Hpos|]. lra. }
  assert (H2 : (part / whole <= 1)%Q).
  { apply Qle_shift_div_r; [exact Hpos|]. lra. }
  split; lra.
Qed.

(** ** The derived scores of a questionnaire *)

Lemma fold_sum_nonneg (f : QuestionResponse.t -> Q)
    (l : list QuestionResponse.t) (a : Q) :
  (0 <= a)%Q -> Forall (fun r => (0 <= f r)%Q) l ->
  (0 <= fold_left (fun sum r => (sum + f r)%Q) l a)%Q.
Proof.
  intros Ha Hl. revert a Ha.
  induction Hl as [|r l Hr _ IH]; intros a Ha; cbn; [exact Ha|].
  apply IH. lra.
Qed.

Lemma fold_sum_le (f g : QuestionResponse.t -> Q)
    (l : list QuestionResponse.t) (a b : Q) :
  (a <= b)%Q -> Forall (fun r => (f r <= g r)%Q) l ->
  (fold_left (fun sum r => (sum + f r)%Q) l a
   <= fold_left (fun sum r => (sum + g r)%Q) l b)%Q.
Proof.
  intros Hab Hl. revert a b Hab.
  induction Hl as [|r l Hr _ IH]; intros a b Hab; cbn; [exact Hab|].
  apply IH. lra.
Qed.

Lemma totals_within (responses : list QuestionResponse.t) :
  Forall scored_within responses ->
  (0 <= reduce_sum QuestionResponse.score responses)%Q
  /\ (reduce_sum QuestionResponse.score responses
      <= reduce_sum QuestionResponse.weight responses)%Q.
Proof.
  intros H. unfold reduce_sum. split.
  - apply fold_sum_nonneg; [lra|].
    eapply Forall_impl; [exact H|]. intros r [Hr _]. exact Hr.
  - apply fold_sum_le; [lra|].
    eapply Forall_impl; [exact H|]. intros r [_ Hr]. exact Hr.
Qed.

(** X1. When every response has a score between [0] and its weight, the
    overall score that the hook stores lies between [0] and [100] and
    has at most one decimal: it is a tenth of an integer. *)
Theorem overallScore_in_range (responses : list QuestionResponse.t) :
  Forall scored_within responses ->
  (0 <= compute_overallScore responses)%Q
  /\ (compute_overallScore responses <= 100)%Q
  /\ exists n : Z,
       (0 <= n <= 1000)%Z
       /\ (compute_overallScore responses == inject_Z n / 10)%Q.
Proof.
  intros H. destruct (totals_within responses H) as [H0 Hle].
  unfold compute_overallScore.
  set (totalWeight := reduce_sum QuestionResponse.weight responses) in *.
  set (totalScore := reduce_sum QuestionResponse.score responses) in *.
  destruct (Js.gt totalWeight 0) eqn:E.
  - apply gt_true in E.
    destruct (ratio_percent totalScore totalWeight H0 Hle E) as [Hp0 Hp1].
    set (p := (totalScore / totalWeight * 100)%Q) in *.
    assert (Hn : (0 <= Js.Math_round (p * 10) <= 1000)%Z).
    { apply Math_round_between.
      - change (inject_Z 0) with 0%Q. lra.
      - change (inject_Z 1000) with 1000%Q. lra. }
    set (n := Js.Math_round (p * 10)) in *.
    rewrite Qred_correct.
    pose proof (proj1 Hn) as Hn0. pose proof (proj2 Hn) as Hn1.
    rewrite Zle_Qle in Hn0, Hn1.
    change (inject_Z 0) with 0%Q in Hn0.
    change (inject_Z 1000) with 1000%Q in Hn1.
    split; [|split].
    + apply Qle_shift_div_l; lra.
    + apply Qle_shift_div_r; lra.
    + exists n. split; [exact Hn|apply Qred_correct].
  - split; [lra|]. split; [lra|].
    exists 0%Z. split; [lia|reflexivity].
Qed.

Lemma fold_left_invariant {A B} (P : A -> Prop) (R : B -> Prop)
    (f : A -> B -> A) (l : list B) (a : A) :
  P a -> Forall R l -> (forall a b, P a -> R b -> P (f a b)) ->
  P (fold_left f l a).
Proof.
  intros Ha Hl Hstep. revert a Ha.
  induction Hl as [|b l Hb _ IH]; intros a Ha; cbn; [exact Ha|].
  apply IH, Hstep; assumption.
Qed.


Lemma get_set {A} (c c' : Category.t) (a : A) (o : ByCategory.t A) :
  ByCategory.get c (ByCategory.set c' a o)
  = if decide (c = c') then a else ByCategory.get c o.
Proof.
  destruct (decide (c = c')) as [->|Hne].
  - apply get_set_eq.
  - apply get_set_ne, Hne.
Qed.

(** In each category the accumulated score lies between [0] and the
    accumulated weight. *)
Lemma accumulate_within (responses : list QuestionResponse.t) :
  Forall scored_within responses ->
  forall c,
    (0 <= ByCategory.get c (fst (accumulate responses)))%Q
    /\ (ByCategory.get c (fst (accumulate responses))
        <= ByCategory.get c (snd (accumulate responses)))%Q.
Proof.
  intros H. unfold accumulate.
  apply (fold_left_invariant
           (fun acc : ByCategory.t Q * ByCategory.t Q =>
              forall c, (0 <= ByCategory.get c (fst acc))%Q
                        /\ (ByCategory.get c (fst acc)
                            <= ByCategory.get c (snd acc))%Q)
           scored_within); [|exact H|].
  - intros c. destruct c; cbn; split; lra.
  - intros [cs cw] r Hacc [Hr0 Hr1] c. cbn [fst snd].
    rewrite !get_set. specialize (Hacc c). cbn [fst snd] in Hacc.
    destruct (decide (c = QuestionResponse.category r)) as [->|_].
    + pose proof (Hacc) as [Ha Hb]. split; lra.
    + exact Hacc.
Qed.

Lemma compute_categoryScores_get (current : ByCategory.t Z)
    (responses : list QuestionResponse.t) (c : Category.t) :
  ByCategory.get c (compute_categoryScores current responses)
  = if Js.gt (ByCategory.get c (snd (accumulate responses))) 0 then
      Js.Math_round
        (ByCategory.get c (fst (accumulate responses))
         / ByCategory.get c (snd (accumulate responses)) * 100)
    else 0%Z.
Proof.
  unfold compute_categoryScores.
  destruct (accumulate responses) as [cs cw]. cbn [fst snd].
  destruct c; reflexivity.
Qed.

(** The keys loop assigns all four properties: what was stored before
    does not matter. *)
Lemma compute_categoryScores_current (current current' : ByCategory.t Z)
    (responses : list QuestionResponse.t) :
  compute_categoryScores current responses
  = compute_categoryScores current' responses.
Proof.
  unfold compute_categoryScores.
  destruct (accumulate responses) as [cs cw]. reflexivity.
Qed.

(** X2. When every response has a score between [0] and its weight, each
    category score that the hook stores is an integer between [0] and
    [100]. *)
Theorem categoryScores_in_range (current : ByCategory.t Z)
    (responses : list QuestionResponse.t) (c : Category.t) :
  Forall scored_within responses ->
  (0 <= ByCategory.get c (compute_categoryScores current responses) <= 100)%Z.
Proof.
  intros H. rewrite compute_categoryScores_get.
  destruct (accumulate_within responses H c) as [H0 Hle].
  destruct (Js.gt _ 0) eqn:E; [|lia].
  apply gt_true in E.
  destruct (ratio_percent _ _ H0 Hle E) as [Hp0 Hp1].
  apply Math_round_between; assumption.
Qed.



Lemma of_string_Some (s : string) (v : ResponseValue.t) :
  ResponseValue.of_string s = Some v -> s = ResponseValue.to_string v.
Proof.
  unfold ResponseValue.of_string.
  destruct (String.eqb_spec s "Oui") as [->|_];
    [intros H; injection H as <-; reflexivity|].
  destruct (String.eqb_spec s "Non") as [->|_];
    [intros H; injection H as <-; reflexivity|].
  destruct (String.eqb_spec s "Partiellement") as [->|_];
    [intros H; injection H as <-; reflexivity|discriminate].
Qed.

Lemma castResponse_inputs (sc : ScoredInput.t) (stored : QuestionResponse.t) :
  castResponse sc = Some stored ->
  exists v w,
    ResponseInput.response (ScoredInput.input sc) = ResponseValue.to_string v
    /\ ResponseInput.weight (ScoredInput.input sc) = Some w.
Proof.
  unfold castResponse. cbn zeta.
  repeat match goal with
         | |- context [if ?b then None else _] => destruct b
         end; try discriminate.
  destruct (Category.of_string _); [|discriminate].
  destruct (ResponseValue.of_string _) as [v|] eqn:Ev; [|discriminate].
  destruct (ResponseInput.weight _) as [w|]; [|discriminate].
  intros _. exists v, w. split; [apply of_string_Some, Ev|reflexivity].
Qed.

(** The element that either handler stores for a response of weight [0]
    or more has a score between [0] and that weight. *)
Lemma castResponse_within (r : ResponseInput.t)
    (stored : QuestionResponse.t) :
  castResponse (ScoredInput.mk r (score_on_submit r)) = Some stored ->
  (forall w, ResponseInput.weight r = Some w -> (0 <= w)%Q) ->
  scored_within stored.
Proof.
  intros Hcast Hw.
  destruct (castResponse_inputs _ _ Hcast) as (v & w & Hv & Hweight).
  cbn [ScoredInput.input] in Hv, Hweight.
  destruct (castResponse_score r v w stored Hv Hweight Hcast)
    as (_ & Hw' & Hs).
  specialize (Hw w Hweight).
  unfold scored_within. rewrite Hs, Hw'.
  destruct v; cbn [spec_score]; split; lra.
Qed.

Lemma castResponses_within (responses : list ResponseInput.t)
    (stored : list QuestionResponse.t) :
  castResponses (scoredResponses_submit responses) = Some stored ->
  Forall (fun r => forall w, ResponseInput.weight r = Some w -> (0 <= w)%Q)
         responses ->
  Forall scored_within stored.
Proof.
  unfold castResponses, scoredResponses_submit. intros Hcast Hw.
  apply mapM_Some in Hcast. apply Forall2_fmap_l in Hcast.
  induction Hcast as [|r s l k Hrs _ IH]; [constructor|].
  apply Forall_cons in Hw as [Hr Hl].
  constructor; [|apply IH, Hl].
  apply (castResponse_within r s Hrs Hr).
Qed.

Lemma count_answered_length (responses : list QuestionResponse.t) :
  count_answered responses = length responses.
Proof.
  unfold count_answered. f_equal.
  induction responses as [|r l IH]; [reflexivity|].
  rewrite filter_cons, decide_True, IH; [reflexivity|].
  destruct (QuestionResponse.response r); reflexivity.
Qed.

(** X4. After a save that recomputes, every question counts as answered:
    the two counters are the number of responses, and the completion
    percentage is 100 unless there is no response, when it is 0. *)
Theorem saved_questionnaire_is_complete (q : Questionnaire.t) :
  let saved := questionnaire_preSave true q in
  Questionnaire.totalQuestions saved = length (Questionnaire.responses q)
  /\ Questionnaire.answeredQuestions saved = Questionnaire.totalQuestions saved
  /\ (completionPercentage saved
      == if (0 <? length (Questionnaire.responses q))%nat then 100 else 0)%Q.
Proof.
  cbn zeta. unfold completionPercentage.
  cbn [questionnaire_preSave Questionnaire.totalQuestions
       Questionnaire.answeredQuestions].
  rewrite count_answered_length. split; [reflexivity|]. split; [reflexivity|].
  destruct (Nat.ltb_spec 0 (length (Questionnaire.responses q))) as [Hpos|_];
    [|reflexivity].
  assert (Hne : ~ (inject_Z (Z.of_nat (length (Questionnaire.responses q)))
                   == 0)%Q).
  { intros E. unfold Qeq in E. cbn in E. lia. }
  field. exact Hne.
Qed.

(** ** The handlers of the questionnaires *)

(** The document that the submission handler builds has its derived
    paths unset, and [save()] rejects it. *)
Lemma save_new_Questionnaire (newId userId : ObjectId)
    (responses : list ScoredInput.t) (completionTime : Q) (notes : string)
    (tags : list string) :
  save_new newId (new_Questionnaire userId responses completionTime notes tags)
  = None.
Proof. reflexivity. Qed.

Lemma submit_keeps_db (user : User.t) (newId : ObjectId) (body : SubmitBody.t)
    (db : list Questionnaire.t) :
  snd (submit user newId body db) = db.
Proof.
  unfold submit. destruct (validate_submit body); reflexivity.
Qed.

Lemma update_succeeded (user : User.t) (id : ObjectId) (changes : UpdateBody.t)
    (db db' : list Questionnaire.t) (saved : Questionnaire.t) :
  update user id changes db = (Success saved, db') ->
  exists i q assigned,
    findQuestionnaire id db = Some (i, q)
    /\ authorised user (Questionnaire.userId q)
    /\ apply_update changes q = Some assigned
    /\ saved = questionnaire_preSave
                 (bool_decide (is_Some (UpdateBody.responses changes)))
                 assigned
    /\ db' = <[i := saved]> db.
Proof.
  unfold update. destruct (validate_update changes); [|discriminate].
  destruct (findQuestionnaire id db) as [[i q]|] eqn:Hfind; [|discriminate].
  destruct (negb (String.eqb _ _) && negb (String.eqb _ _)) eqn:E;
    [discriminate|].
  destruct (apply_update changes q) as [assigned|] eqn:Ha; [|discriminate].
  intros H. injection H as <- <-. exists i, q, assigned.
  split; [reflexivity|]. split; [|repeat split; exact Ha].
  unfold authorised.
  apply andb_false_iff in E as [E|E]; apply negb_false_iff in E;
    apply String.eqb_eq in E; auto.
Qed.

Lemma findQuestionnaire_Some (id : ObjectId) (db : list Questionnaire.t)
    (i : nat) (q : Questionnaire.t) :
  findQuestionnaire id db = Some (i, q) ->
  db !! i = Some q /\ Questionnaire._id q = id.
Proof.
  unfold findQuestionnaire. intros H.
  apply (list_find_Some (fun q => Questionnaire._id q = id) db i q) in H.
  tauto.
Qed.

Lemma apply_update_fields (changes : UpdateBody.t) (q assigned : Questionnaire.t) :
  apply_update changes q = Some assigned ->
  Questionnaire._id assigned = Questionnaire._id q
  /\ Questionnaire.userId assigned = Questionnaire.userId q
  /\ Questionnaire.majorNonConformities assigned
     = Questionnaire.majorNonConformities q
  /\ Questionnaire.completionTime assigned = Questionnaire.completionTime q
  /\ (UpdateBody.responses changes = None ->
      Questionnaire.responses assigned = Questionnaire.responses q
      /\ Questionnaire.overallScore assigned = Questionnaire.overallScore q
      /\ Questionnaire.categoryScores assigned = Questionnaire.categoryScores q
      /\ Questionnaire.maturityLevel assigned = Questionnaire.maturityLevel q
      /\ Questionnaire.totalQuestions assigned = Questionnaire.totalQuestions q
      /\ Questionnaire.answeredQuestions assigned
         = Questionnaire.answeredQuestions q).
Proof.
  unfold apply_update.
  destruct (UpdateBody.responses changes) as [rs|].
  - destruct (castResponses _); [|discriminate]. cbn.
    intros H. injection H as <-. repeat split; discriminate.
  - cbn. intros H. injection H as <-. repeat split.
Qed.

Lemma preSave_derived (q : Questionnaire.t) :
  derived_from_responses (questionnaire_preSave true q).
Proof.
  unfold derived_from_responses. cbn.
  repeat split; apply compute_categoryScores_current.
Qed.

(** X5. The derived fields stay those of the responses: when every stored
    questionnaire has its overall score, category scores, tier and
    counters computed from its responses, this is still so after an
    update, whether it supplies responses, which the hook then scores, or
    does not, the hook then being skipped. *)
Theorem derived_fields_invariant (user : User.t) (id : ObjectId)
    (changes : UpdateBody.t) (db : list Questionnaire.t) :
  Forall derived_from_responses db ->
  Forall derived_from_responses (snd (update user id changes db)).
Proof.
  intros Hdb.
  destruct (update user id changes db) as [reply db'] eqn:E. cbn [snd].
  pose proof (update_failure_keeps_db user id changes db) as Hkeep.
  rewrite E in Hkeep. cbn [fst snd] in Hkeep.
  destruct reply; try (rewrite (Hkeep I); exact Hdb).
  - unfold update in E. destruct (validate_update changes); [|discriminate].
    destruct (findQuestionnaire id db) as [[i q]|]; [|discriminate].
    destruct (_ && _); [discriminate|].
    destruct (apply_update changes q); discriminate.
  - apply update_succeeded in E
      as (i & q & assigned & Hfind & _ & Happly & -> & ->).
    apply Forall_insert; [exact Hdb|].
    destruct (UpdateBody.responses changes) as [rs|] eqn:Ers.
    + rewrite bool_decide_eq_true_2 by eauto. apply preSave_derived.
    + rewrite bool_decide_eq_false_2 by (intros [x Hx]; discriminate).
      cbn [questionnaire_preSave].
      apply findQuestionnaire_Some in Hfind as [Hi _].
      pose proof (proj1 (Forall_lookup _ _) Hdb i q Hi) as Hq.
      destruct (apply_update_fields changes q assigned Happly)
        as (_ & _ & _ & _ & Hsame).
      destruct (Hsame Ers) as (H1 & H2 & H3 & H4 & H5 & H6).
      unfold derived_from_responses in *.
      rewrite H1, H2, H3, H4, H5, H6. exact Hq.
Qed.

(** X6. The submission handler never stores a questionnaire.  A body that
    fails a chain is answered with the validation failure; for every
    other body [save()] rejects the new document, whose required derived
    paths are unset when it is validated, and the handler answers with
    the status 500 and the error 'Questionnaire submission failed'.  In
    both cases the stored questionnaires are as they were. *)
Theorem submit_never_stores (user : User.t) (newId : ObjectId)
    (body : SubmitBody.t) (db : list Questionnaire.t) :
  snd (submit user newId body db) = db
  /\ is_failure (fst (submit user newId body db))
  /\ (validate_submit body = [] ->
      submit user newId body db
      = (InternalError "Questionnaire submission failed", db))
  /\ (validate_submit body <> [] ->
      submit user newId body db
      = (ValidationFailed (validate_submit body), db)).
Proof.
  split; [apply submit_keeps_db|]. split; [|split].
  - unfold submit. destruct (validate_submit body); exact I.
  - intros E. unfold submit. rewrite E. reflexivity.
  - apply submit_rejected.
Qed.

(** X7. An update that supplies responses whose weights are all [0] or
    more is stored with every score between [0] and the weight of its
    response. *)
Theorem stored_scores_within (user : User.t) (id : ObjectId)
    (changes : UpdateBody.t) (db db' : list Questionnaire.t)
    (responses : list ResponseInput.t) (saved : Questionnaire.t) :
  UpdateBody.responses changes = Some responses ->
  nonneg_weights responses ->
  update user id changes db = (Success saved, db') ->
  Forall scored_within (Questionnaire.responses saved).
Proof.
  intros Hrs Hw E.
  apply update_succeeded in E
    as (i & q & assigned & _ & _ & Happly & -> & _).
  unfold apply_update in Happly. rewrite Hrs in Happly.
  destruct (castResponses (scoredResponses_update responses))
    as [rs|] eqn:Hcast; [|discriminate].
  cbn in Happly. injection Happly as <-.
  rewrite bool_decide_eq_true_2 by eauto. cbn.
  apply (castResponses_within responses rs Hcast Hw).
Qed.

Lemma owner_check_false (user : User.t) (owner : ObjectId) :
  negb (String.eqb owner (User._id user))
  && negb (String.eqb (User.role user) "admin") = false
  <-> authorised user owner.
Proof.
  unfold authorised.
  rewrite andb_false_iff, !negb_false_iff, !String.eqb_eq. reflexivity.
Qed.

Lemma owner_check_true (user : User.t) (owner : ObjectId) :
  negb (String.eqb owner (User._id user))
  && negb (String.eqb (User.role user) "admin") = true
  <-> ~ authorised user owner.
Proof.
  rewrite <- owner_check_false. destruct (_ && _); split; congruence.
Qed.

Lemma list_find_insert_same {A} (P : A -> Prop) `{!forall x, Decision (P x)}
    (l : list A) (i : nat) (x y : A) :
  list_find P l = Some (i, x) -> P y ->
  list_find P (<[i := y]> l) = Some (i, y).
Proof.
  intros Hfind Hy. apply list_find_Some in Hfind as (Hi & _ & Hbefore).
  apply list_find_Some. split; [|split; [exact Hy|]].
  - apply list_lookup_insert_eq. eapply lookup_lt_Some, Hi.
  - intros j z Hj Hlt. rewrite list_lookup_insert_ne in Hj by lia.
    exact (Hbefore j z Hj Hlt).
Qed.

Lemma list_find_insert_other {A} (P : A -> Prop) `{!forall x, Decision (P x)}
    (l : list A) (i : nat) (x y : A) :
  l !! i = Some x -> ~ P x -> ~ P y ->
  list_find P (<[i := y]> l) = list_find P l.
Proof.
  revert i. induction l as [|a l IH]; intros i Hi Hx Hy; [discriminate|].
  destruct i as [|i]; cbn in Hi.
  - injection Hi as ->. cbn. rewrite !decide_False by assumption. reflexivity.
  - change (<[S i := y]> (a :: l)) with (a :: <[i := y]> l). cbn.
    destruct (decide (P a)); [reflexivity|].
    rewrite (IH i Hi Hx Hy). reflexivity.
Qed.

(** X8. A questionnaire that was updated can be read back: the document
    that the update answers with is the one the identifier resolves to
    afterwards, for the user who updated it and for any administrator;
    any other user who is not its owner is denied; every other
    identifier reads as before, and no document is added or removed. *)
Theorem update_then_get (user reader : User.t) (id : ObjectId)
    (changes : UpdateBody.t) (db db' : list Questionnaire.t)
    (saved : Questionnaire.t) :
  update user id changes db = (Success saved, db') ->
  Questionnaire._id saved = id
  /\ getQuestionnaire user id db' = Success saved
  /\ (User.role reader = "admin" ->
      getQuestionnaire reader id db' = Success saved)
  /\ (Questionnaire.userId saved <> User._id reader ->
      User.role reader <> "admin" ->
      getQuestionnaire reader id db' = AccessDenied)
  /\ (forall other, other <> id ->
        getQuestionnaire reader other db' = getQuestionnaire reader other db)
  /\ length db' = length db.
Proof.
  intros E.
  apply update_succeeded in E
    as (i & q & assigned & Hfind & Hauth & Happly & Hsaved & ->).
  destruct (apply_update_fields changes q assigned Happly)
    as (Hid & Huser & _).
  pose proof (findQuestionnaire_Some id db i q Hfind) as [Hi Hq].
  assert (Hid' : Questionnaire._id saved = id).
  { rewrite Hsaved. destruct (bool_decide _); cbn; congruence. }
  assert (Huser' : Questionnaire.userId saved = Questionnaire.userId q).
  { rewrite Hsaved. destruct (bool_decide _); cbn; congruence. }
  assert (Hfind' : findQuestionnaire id (<[i := saved]> db) = Some (i, saved)).
  { apply (list_find_insert_same (fun q => Questionnaire._id q = id)
             db i q saved Hfind Hid'). }
  split; [exact Hid'|].
  unfold getQuestionnaire. rewrite Hfind'.
  split; [|split; [|split; [|split]]].
  - rewrite (proj2 (owner_check_false user _)); [reflexivity|].
    rewrite Huser'. exact Hauth.
  - intros Hadmin.
    rewrite (proj2 (owner_check_false reader _)); [reflexivity|].
    right. exact Hadmin.
  - intros Hother Hrole.
    rewrite (proj2 (owner_check_true reader _)); [reflexivity|].
    intros [H|H]; contradiction.
  - intros other Hother. unfold findQuestionnaire.
    rewrite (list_find_insert_other
               (fun q => Questionnaire._id q = other) db i q saved Hi);
      [reflexivity| |]; congruence.
  - apply length_insert.
Qed.

Lemma list_find_delete_other {A} (P : A -> Prop) `{!forall x, Decision (P x)}
    (l : list A) (i : nat) (x : A) :
  l !! i = Some x -> ~ P x ->
  snd <$> list_find P (delete i l) = snd <$> list_find P l.
Proof.
  revert i. induction l as [|a l IH]; intros i Hi Hx; [discriminate|].
  destruct i as [|i]; cbn in Hi.
  - injection Hi as ->. cbn. rewrite decide_False by exact Hx.
    rewrite <- option_fmap_compose. apply option_fmap_ext.
    intros [j y]. reflexivity.
  - cbn. destruct (decide (P a)); [reflexivity|].
    rewrite <- !option_fmap_compose.
    specialize (IH i Hi Hx).
    destruct (list_find P (delete i l)) as [[j y]|],
             (list_find P l) as [[j' y']|]; cbn in *; congruence.
Qed.

Lemma list_find_delete_first {A B} (key : A -> B) `{!EqDecision B}
    (l : list A) (i : nat) (x : A) (k : B) :
  NoDup (key <$> l) ->
  list_find (fun y => key y = k) l = Some (i, x) ->
  list_find (fun y => key y = k) (delete i l) = None.
Proof.
  intros Hnd Hfind.
  apply list_find_Some in Hfind as (Hi & Hk & _).
  apply list_find_None, Forall_forall. intros y Hy Hyk.
  apply list_elem_of_lookup in Hy as [j Hj].
  assert (Hj' : exists j', j' <> i /\ l !! j' = Some y).
  { destruct (decide (j < i)%nat).
    - exists j. split; [lia|].
      rewrite list_lookup_delete_lt in Hj by lia. exact Hj.
    - exists (S j). split; [lia|].
      rewrite list_lookup_delete_ge in Hj by lia. exact Hj. }
  destruct Hj' as (j' & Hne & Hj').
  apply Hne.
  apply (NoDup_lookup (key <$> l) j' i k); [exact Hnd| |].
  - rewrite list_lookup_fmap, Hj'. cbn. congruence.
  - rewrite list_lookup_fmap, Hi. cbn. congruence.
Qed.

(** X9. When the stored identifiers are distinct, a successful delete
    removes one document, the one with the identifier: afterwards that
    identifier is not found, and every other identifier reads as
    before. *)
Theorem delete_then_get (user reader : User.t) (id : ObjectId)
    (db db' : list Questionnaire.t) :
  NoDup (Questionnaire._id <$> db) ->
  deleteQuestionnaire user id db = (Success tt, db') ->
  S (length db') = length db
  /\ getQuestionnaire reader id db' = NotFound
  /\ (forall other, other <> id ->
        getQuestionnaire reader other db' = getQuestionnaire reader other db).
Proof.
  intros Hnd. unfold deleteQuestionnaire.
  destruct (findQuestionnaire id db) as [[i q]|] eqn:Hfind; [|discriminate].
  destruct (_ && _); [discriminate|].
  intros H. injection H as <-.
  pose proof (findQuestionnaire_Some id db i q Hfind) as [Hi Hid].
  split; [|split].
  - rewrite length_delete by eauto.
    apply lookup_lt_Some in Hi. lia.
  - unfold getQuestionnaire, findQuestionnaire.
    rewrite (list_find_delete_first Questionnaire._id db i q id Hnd Hfind).
    reflexivity.
  - intros other Hother. unfold getQuestionnaire, findQuestionnaire.
    pose proof (list_find_delete_other
                  (fun q => Questionnaire._id q = other) db i q Hi) as Hsame.
    assert (Hne : Questionnaire._id q <> other) by congruence.
    specialize (Hsame Hne).
    destruct (list_find _ (delete i db)) as [[j y]|],
             (list_find _ db) as [[j' y']|]; cbn in Hsame;
      try discriminate; [|reflexivity].
    injection Hsame as ->. reflexivity.
Qed.

(** X10. A handler changes the stored questionnaires only for the owner of
    the addressed document or an administrator; an update then replaces
    that one document, keeping its identifier and owner, and a delete
    removes it. *)
Theorem questionnaire_changes_are_authorised (user : User.t) (id : ObjectId)
    (changes : UpdateBody.t) (db : list Questionnaire.t) :
  (snd (update user id changes db) <> db ->
   exists i q saved,
     findQuestionnaire id db = Some (i, q)
     /\ authorised user (Questionnaire.userId q)
     /\ snd (update user id changes db) = <[i := saved]> db
     /\ Questionnaire._id saved = Questionnaire._id q
     /\ Questionnaire.userId saved = Questionnaire.userId q)
  /\ (snd (deleteQuestionnaire user id db) <> db ->
      exists i q,
        findQuestionnaire id db = Some (i, q)
        /\ authorised user (Questionnaire.userId q)
        /\ snd (deleteQuestionnaire user id db) = delete i db).
Proof.
  split.
  - intros Hchanged.
    destruct (update user id changes db) as [reply db'] eqn:E.
    pose proof (update_failure_keeps_db user id changes db) as Hkeep.
    rewrite E in Hkeep. cbn [fst snd] in *.
    destruct reply; try (exfalso; apply Hchanged, Hkeep, I).
    + unfold update in E. destruct (validate_update changes); [|discriminate].
      destruct (findQuestionnaire id db) as [[i q]|]; [|discriminate].
      destruct (_ && _); [discriminate|].
      destruct (apply_update changes q); discriminate.
    + apply update_succeeded in E
        as (i & q & assigned & Hfind & Hauth & Happly & -> & ->).
      exists i, q, (questionnaire_preSave
                      (bool_decide (is_Some (UpdateBody.responses changes)))
                      assigned).
      destruct (apply_update_fields changes q assigned Happly)
        as (Hid & Huser & _).
      repeat split; try assumption.
      * rewrite <- Hid. destruct (bool_decide _); reflexivity.
      * rewrite <- Huser. destruct (bool_decide _); reflexivity.
  - unfold deleteQuestionnaire.
    destruct (findQuestionnaire id db) as [[i q]|] eqn:Hfind;
      [|intros H; contradiction].
    destruct (_ && _) eqn:E; [intros H; contradiction|].
    intros _. exists i, q. repeat split.
    apply owner_check_false, E.
Qed.

(** With a negative weight the bound is lost: a weight of 10 answered
    Oui and a weight of -5 answered Non give an overall score of 200. *)
Example overallScore_negative_weight :
  compute_overallScore
    [ QuestionResponse.mk "q1" "Is a security policy defined?"
        Category.Plan "5.2" 10 true ResponseValue.Oui 10;
      QuestionResponse.mk "q2" "Are internal audits planned?"
        Category.Check "9.2" (-5) false ResponseValue.Non 0 ]
  = 200%Q.
Proof. vm_compute. reflexivity. Qed.

(** ** The order of the tiers *)

(** X11. The classification is monotone: a higher score never gets a lower
    tier.  Every score gets one of the five tiers of the schema, and the
    tier fixes the colour and the description. *)
Theorem maturity_tier_monotone (s1 s2 : Q) :
  (s1 <= s2)%Q ->
  (tier_rank (MaturityLevel.level (getMaturityLevel s1))
   <= tier_rank (MaturityLevel.level (getMaturityLevel s2)))%nat
  /\ isIn ["Critique"; "Basique"; "Intermédiaire"; "Avancé"; "Excellence"]
          (MaturityLevel.level (getMaturityLevel s1)) = true
  /\ (MaturityLevel.level (getMaturityLevel s1)
      = MaturityLevel.level (getMaturityLevel s2) ->
      getMaturityLevel s1 = getMaturityLevel s2).
Proof.
  intros Hle. unfold getMaturityLevel.
  destruct (Js.ge s1 90) eqn:A1; [|destruct (Js.ge s1 75) eqn:A2;
    [|destruct (Js.ge s1 60) eqn:A3; [|destruct (Js.ge s1 40) eqn:A4]]];
  (destruct (Js.ge s2 90) eqn:B1; [|destruct (Js.ge s2 75) eqn:B2;
    [|destruct (Js.ge s2 60) eqn:B3; [|destruct (Js.ge s2 40) eqn:B4]]]);
  repeat match goal with
  | H : Js.ge _ _ = true |- _ => apply ge_true in H
  | H : Js.ge _ _ = false |- _ => apply ge_false in H
  end;
  try (exfalso; lra);
  (split; [vm_compute; lia|split; [reflexivity|]]);
  first [reflexivity | intros H; discriminate H].
Qed.

Lemma maturity_tier_monotone_witness :
  (tier_rank (MaturityLevel.level (getMaturityLevel 39.9))
   <= tier_rank (MaturityLevel.level (getMaturityLevel 75)))%nat.
Proof.
  apply (maturity_tier_monotone 39.9 75).
  unfold Qle. simpl. lia.
Defined.

(** ** The range of the progress *)

Lemma Math_round_Qeq (x y : Q) :
  (x == y)%Q -> Js.Math_round x = Js.Math_round y.
Proof.
  intros E. apply Z.le_antisymm; apply Math_round_mono; rewrite E;
    apply Qle_refl.
Qed.

Lemma inject_nat_nonneg (n : nat) : (0 <= inject_Z (Z.of_nat n))%Q.
Proof.
  change 0%Q with (inject_Z 0). rewrite <- Zle_Qle. lia.
Qed.

Lemma inject_nat_le (n m : nat) :
  (n <= m)%nat -> (inject_Z (Z.of_nat n) <= inject_Z (Z.of_nat m))%Q.
Proof. intros H. rewrite <- Zle_Qle. lia. Qed.

Lemma inject_nat_pos (n : nat) :
  (0 < n)%nat -> (0 < inject_Z (Z.of_nat n))%Q.
Proof.
  intros H. change 0%Q with (inject_Z 0). rewrite <- Zlt_Qlt. lia.
Qed.

Lemma percentage_bounds (completed total : nat) :
  (completed <= total)%nat -> (0 < total)%nat ->
  (0 <= percentage completed total)%Q /\ (percentage completed total <= 100)%Q.
Proof.
  intros Hle Hpos. unfold percentage.
  apply ratio_percent;
    auto using inject_nat_nonneg, inject_nat_le, inject_nat_pos.
Qed.

Lemma percentage_mono (completed completed' total : nat) :
  (completed <= completed')%nat ->
  (percentage completed total <= percentage completed' total)%Q.
Proof.
  intros Hle. unfold percentage, Qdiv.
  apply Qmult_le_compat_r; [|discriminate].
  apply Qmult_le_compat_r; [apply inject_nat_le, Hle|].
  apply Qinv_le_0_compat, inject_nat_nonneg.
Qed.

Lemma percentage_full (total : nat) :
  (0 < total)%nat -> (percentage total total == 100)%Q.
Proof.
  intros Hpos. unfold percentage.
  pose proof (inject_nat_pos total Hpos) as H.
  field. intros E. rewrite E in H. exact (Qlt_irrefl _ H).
Qed.

Lemma percentage_none (total : nat) : (percentage 0 total == 0)%Q.
Proof. unfold percentage, Qdiv. cbn [Z.of_nat]. ring. Qed.

Lemma overallProgress_eq (tasks : list Task.t) :
  overallProgress tasks
  = if (0 <? length tasks)%nat then
      Js.Math_round (percentage (completedCount tasks) (length tasks))
    else 0%Z.
Proof.
  unfold overallProgress. rewrite completed_filter_length.
  destruct tasks; reflexivity.
Qed.

Lemma completedCount_in_le (c : Category.t) (tasks : list Task.t) :
  (completedCount_in c tasks <= totalCount_in c tasks)%nat.
Proof.
  unfold completedCount_in, totalCount_in.
  induction tasks as [|t l IH]; [reflexivity|].
  rewrite !filter_cons.
  destruct (decide (Task.category t = c)) as [Hc|Hc].
  - destruct (decide (_ /\ _)); cbn [length]; lia.
  - rewrite decide_False by tauto. exact IH.
Qed.

Lemma percentage_round_range (completed total : nat) :
  (completed <= total)%nat -> (0 < total)%nat ->
  (0 <= Js.Math_round (percentage completed total) <= 100)%Z.
Proof.
  intros Hle Hpos.
  destruct (percentage_bounds completed total Hle Hpos) as [H0 H1].
  apply Math_round_between; assumption.
Qed.

(** X12. Whatever the tasks, the overall progress and the progress of each
    category are integers between [0] and [100]. *)
Theorem progress_in_range (tasks : list Task.t) :
  (0 <= Progress.overall (recompute tasks) <= 100)%Z
  /\ forall c,
       (0 <= ByCategory.get c (Progress.byCategory (recompute tasks))
        <= 100)%Z.
Proof.
  cbn [recompute Progress.overall Progress.byCategory]. split.
  - rewrite overallProgress_eq.
    destruct (Nat.ltb_spec 0 (length tasks)) as [Hpos|_]; [|lia].
    apply percentage_round_range; [|exact Hpos].
    unfold completedCount. apply length_filter.
  - intros c. rewrite categoryProgress_get.
    destruct (Nat.ltb_spec 0 (totalCount_in c tasks)) as [Hpos|_]; [|lia].
    apply percentage_round_range; [|exact Hpos].
    apply completedCount_in_le.
Qed.

Lemma ByCategory_ext {A} (o o' : ByCategory.t A) :
  (forall c, ByCategory.get c o = ByCategory.get c o') -> o = o'.
Proof.
  intros H. destruct o, o'.
  pose proof (H Category.Plan). pose proof (H Category.Do).
  pose proof (H Category.Check). pose proof (H Category.Act).
  cbn in *. congruence.
Qed.

Lemma filter_all {A} (P : A -> Prop) `{!forall x, Decision (P x)}
    (l : list A) :
  Forall P l -> filter P l = l.
Proof.
  induction 1 as [|x l Hx _ IH]; [reflexivity|].
  rewrite filter_cons, decide_True, IH by exact Hx. reflexivity.
Qed.

Lemma filter_none {A} (P : A -> Prop) `{!forall x, Decision (P x)}
    (l : list A) :
  Forall (fun x => ~ P x) l -> filter P l = [].
Proof.
  induction 1 as [|x l Hx _ IH]; [reflexivity|].
  rewrite filter_cons, decide_False, IH by exact Hx. reflexivity.
Qed.

Lemma recompute_none_completed (tasks : list Task.t) :
  Forall (fun t => Task.status t <> TaskStatus.Completed) tasks ->
  recompute tasks = Progress.mk 0 (ByCategory.mk 0 0 0 0)%Z.
Proof.
  intros H. unfold recompute. f_equal.
  - rewrite overallProgress_eq. destruct (0 <? length tasks)%nat; [|reflexivity].
    unfold completedCount. rewrite (filter_none _ tasks H). cbn [length].
    rewrite (Math_round_Qeq _ 0 (percentage_none _)). reflexivity.
  - apply ByCategory_ext. intros c. rewrite categoryProgress_get.
    replace (ByCategory.get c (ByCategory.mk 0 0 0 0)%Z) with 0%Z
      by (destruct c; reflexivity).
    destruct (0 <? totalCount_in c tasks)%nat; [|reflexivity].
    unfold completedCount_in. rewrite filter_none.
    + cbn [length].
      rewrite (Math_round_Qeq _ 0 (percentage_none _)). reflexivity.
    + eapply Forall_impl; [exact H|]. intros t Ht [_ Hc]. contradiction.
Qed.

(** X13. The two ends of the scale: when every task is completed, the
    overall progress of a roadmap with a task is 100 and so is that of
    every category with a task; when no task is completed, all progress
    is 0. *)
Theorem progress_extremes (tasks : list Task.t) :
  (Forall (fun t => Task.status t = TaskStatus.Completed) tasks ->
   (if (0 <? length tasks)%nat
    then Progress.overall (recompute tasks) = 100%Z
    else Progress.overall (recompute tasks) = 0%Z)
   /\ forall c,
        ByCategory.get c (Progress.byCategory (recompute tasks))
        = if (0 <? totalCount_in c tasks)%nat then 100%Z else 0%Z)
  /\ (Forall (fun t => Task.status t <> TaskStatus.Completed) tasks ->
      recompute tasks = Progress.mk 0 (ByCategory.mk 0 0 0 0)%Z).
Proof.
  split; [|apply recompute_none_completed].
  intros H. cbn [recompute Progress.overall Progress.byCategory]. split.
  - rewrite overallProgress_eq.
    destruct (Nat.ltb_spec 0 (length tasks)) as [Hpos|_]; [|reflexivity].
    unfold completedCount. rewrite (filter_all _ tasks H).
    rewrite (Math_round_Qeq _ 100 (percentage_full _ Hpos)).
    apply (Math_round_Z 100).
  - intros c. rewrite categoryProgress_get.
    destruct (Nat.ltb_spec 0 (totalCount_in c tasks)) as [Hpos|_];
      [|reflexivity].
    replace (completedCount_in c tasks) with (totalCount_in c tasks).
    + rewrite (Math_round_Qeq _ 100 (percentage_full _ Hpos)).
      apply (Math_round_Z 100).
    + unfold completedCount_in, totalCount_in. f_equal.
      clear Hpos. induction H as [|t l Ht _ IH]; [reflexivity|].
      rewrite !filter_cons.
      destruct (decide (Task.category t = c)) as [Hc|Hc].
      * rewrite decide_True by tauto. rewrite IH. reflexivity.
      * rewrite decide_False by tauto. exact IH.
Qed.

(** ** Completing a task *)

Lemma length_filter_insert_mono {A} (P : A -> Prop)
    `{!forall x, Decision (P x)} (l : list A) (i : nat) (x y : A) :
  l !! i = Some x -> (P x -> P y) ->
  (length (filter P l) <= length (filter P (<[i := y]> l)))%nat.
Proof.
  revert i. induction l as [|a l IH]; intros i Hi Hxy; [discriminate|].
  destruct i as [|i]; cbn in Hi.
  - injection Hi as ->. change (<[0%nat := y]> (x :: l)) with (y :: l).
    rewrite !filter_cons.
    destruct (decide (P x)) as [Hx|Hx].
    + rewrite decide_True by auto. reflexivity.
    + destruct (decide (P y)); cbn [length]; lia.
  - change (<[S i := y]> (a :: l)) with (a :: <[i := y]> l).
    rewrite !filter_cons. specialize (IH i Hi Hxy).
    destruct (decide (P a)); cbn [length]; lia.
Qed.

Lemma length_filter_insert_same {A} (P : A -> Prop)
    `{!forall x, Decision (P x)} (l : list A) (i : nat) (x y : A) :
  l !! i = Some x -> (P x <-> P y) ->
  length (filter P (<[i := y]> l)) = length (filter P l).
Proof.
  revert i. induction l as [|a l IH]; intros i Hi Hxy; [discriminate|].
  destruct i as [|i]; cbn in Hi.
  - injection Hi as ->. change (<[0%nat := y]> (x :: l)) with (y :: l).
    rewrite !filter_cons.
    destruct (decide (P x)) as [Hx|Hx].
    + rewrite decide_True by tauto. reflexivity.
    + rewrite decide_False by tauto. reflexivity.
  - change (<[S i := y]> (a :: l)) with (a :: <[i := y]> l).
    rewrite !filter_cons. specialize (IH i Hi Hxy).
    destruct (decide (P a)); cbn [length]; lia.
Qed.

(** X14. Completing a task never lowers the stored progress: on a roadmap
    whose stored progress is that of its tasks, after the status of a
    task is set to Completed the overall progress and the progress of
    every category are at least what they were. *)
Theorem completing_never_lowers_progress (r : Roadmap.t) (taskId : ObjectId)
    (i : nat) (task : Task.t) (now : Date) :
  consistent r ->
  tasks_id taskId (Roadmap.tasks r) = Some (i, task) ->
  let r' := snd (updateTaskStatus taskId TaskStatus.Completed now r) in
  (Progress.overall (Roadmap.progress r)
   <= Progress.overall (Roadmap.progress r'))%Z
  /\ forall c,
       (ByCategory.get c (Progress.byCategory (Roadmap.progress r))
        <= ByCategory.get c (Progress.byCategory (Roadmap.progress r')))%Z.
Proof.
  intros Hr Hfind r'.
  pose proof (mutate_consistent
                (UpdateTaskStatus taskId TaskStatus.Completed) now r Hr)
    as Hr'.
  cbn [mutate] in Hr'. fold r' in Hr'.
  destruct (updateTaskStatus_found r taskId i task TaskStatus.Completed now
              Hfind) as [_ Htasks].
  fold r' in Htasks.
  unfold consistent in Hr, Hr'. rewrite Hr, Hr', Htasks.
  apply tasks_id_Some in Hfind as (Hi & _).
  set (task' := assign_status TaskStatus.Completed now task).
  cbn [recompute Progress.overall Progress.byCategory]. split.
  - rewrite !overallProgress_eq, length_insert.
    destruct (0 <? length (Roadmap.tasks r))%nat; [|reflexivity].
    apply Math_round_mono, percentage_mono.
    unfold completedCount.
    apply (length_filter_insert_mono _ _ i task task' Hi).
    intros _. apply assign_status_status.
  - intros c. rewrite !categoryProgress_get.
    assert (Htotal : totalCount_in c (<[i := task']> (Roadmap.tasks r))
                     = totalCount_in c (Roadmap.tasks r)).
    { unfold totalCount_in.
      apply (length_filter_insert_same _ _ i task task' Hi).
      unfold task'. rewrite assign_status_category. reflexivity. }
    rewrite Htotal.
    destruct (0 <? totalCount_in c (Roadmap.tasks r))%nat; [|reflexivity].
    apply Math_round_mono, percentage_mono.
    unfold completedCount_in.
    apply (length_filter_insert_mono _ _ i task task' Hi).
    unfold task'. rewrite assign_status_category, assign_status_status.
    tauto.
Qed.

(** ** The mutations and what they leave alone *)

Lemma findRoadmap_Some (id : ObjectId) (db : list Roadmap.t) (i : nat)
    (r : Roadmap.t) :
  findRoadmap id db = Some (i, r) ->
  db !! i = Some r /\ Roadmap._id r = id.
Proof.
  unfold findRoadmap. intros H.
  apply (list_find_Some (fun r => Roadmap._id r = id) db i r) in H. tauto.
Qed.

Lemma assign_status_identity (status : TaskStatus.t) (now : Date)
    (task : Task.t) :
  task_identity (assign_status status now task) = task_identity task.
Proof.
  unfold assign_status. destruct (bool_decide _); reflexivity.
Qed.

Lemma updateMetadata_frame (now : Date) (body : MetadataBody.t)
    (r : Roadmap.t) :
  let r' := snd (updateMetadata now body r) in
  Roadmap.tasks r' = Roadmap.tasks r
  /\ Roadmap.milestones r' = Roadmap.milestones r
  /\ Roadmap.priorityAreas r' = Roadmap.priorityAreas r
  /\ Roadmap.progress r' = Roadmap.progress r
  /\ Roadmap.lastUpdated r' = Roadmap.lastUpdated r
  /\ Roadmap._id r' = Roadmap._id r
  /\ Roadmap.userId r' = Roadmap.userId r
  /\ Roadmap.questionnaireId r' = Roadmap.questionnaireId r.
Proof.
  cbn zeta. unfold updateMetadata.
  destruct (validate_metadata body); [|repeat split].
  destruct (metadata_saves body); repeat split.
Qed.

Lemma updateTaskStatus_frame (taskId : ObjectId) (status : TaskStatus.t)
    (now : Date) (r : Roadmap.t) :
  let r' := snd (updateTaskStatus taskId status now r) in
  task_identity <$> Roadmap.tasks r' = task_identity <$> Roadmap.tasks r
  /\ Roadmap.milestones r' = Roadmap.milestones r
  /\ Roadmap.priorityAreas r' = Roadmap.priorityAreas r
  /\ Roadmap._id r' = Roadmap._id r
  /\ Roadmap.userId r' = Roadmap.userId r
  /\ Roadmap.questionnaireId r' = Roadmap.questionnaireId r.
Proof.
  cbn zeta. unfold updateTaskStatus.
  destruct (tasks_id taskId (Roadmap.tasks r)) as [[i task]|] eqn:E;
    [|repeat split].
  apply tasks_id_Some in E as (Hi & _).
  cbn [snd]. destruct (bool_decide _); cbn; (split; [|repeat split]).
  all: rewrite list_fmap_insert, assign_status_identity;
    apply list_insert_id; rewrite list_lookup_fmap, Hi; reflexivity.
Qed.

Lemma mutate_milestones (m : Mutation) (now : Date) (r : Roadmap.t) :
  Roadmap.milestones (snd (mutate m now r)) = Roadmap.milestones r.
Proof.
  destruct m as [newId d|taskId status|newId d|body]; cbn [mutate].
  - reflexivity.
  - apply updateTaskStatus_frame.
  - reflexivity.
  - apply updateMetadata_frame.
Qed.

(** X15. No mutation adds or removes a task or a milestone, or moves a
    roadmap to another owner or questionnaire: after each of them the
    roadmap has the tasks it had, with their identifiers, titles,
    descriptions, categories and priorities and in the same order, and
    the same milestones and priority areas.  A mutation that fails, as
    the two that add a task or a milestone always do, leaves the whole
    roadmap as it was. *)
Theorem mutations_keep_tasks_and_milestones (m : Mutation) (now : Date)
    (r : Roadmap.t) :
  let r' := snd (mutate m now r) in
  task_identity <$> Roadmap.tasks r' = task_identity <$> Roadmap.tasks r
  /\ Roadmap.milestones r' = Roadmap.milestones r
  /\ Roadmap.priorityAreas r' = Roadmap.priorityAreas r
  /\ Roadmap._id r' = Roadmap._id r
  /\ Roadmap.userId r' = Roadmap.userId r
  /\ Roadmap.questionnaireId r' = Roadmap.questionnaireId r
  /\ (fst (mutate m now r) <> None -> r' = r)
  /\ (forall newId taskData milestoneData,
        mutate (AddTask newId taskData) now r = (Some ModelError, r)
        /\ mutate (AddMilestone newId milestoneData) now r
           = (Some ModelError, r)).
Proof.
  cbn zeta.
  assert (Hfail : fst (mutate m now r) <> None -> snd (mutate m now r) = r).
  { destruct m as [newId d|taskId status|newId d|body]; cbn [mutate].
    - reflexivity.
    - unfold updateTaskStatus.
      destruct (tasks_id taskId (Roadmap.tasks r)) as [[i task]|];
        [|reflexivity].
      intros H. contradiction.
    - reflexivity.
    - unfold updateMetadata.
      destruct (validate_metadata body); [|reflexivity].
      destruct (metadata_saves body); [|reflexivity].
      intros H. contradiction. }
  assert (Hadd : forall newId taskData milestoneData,
             mutate (AddTask newId taskData) now r = (Some ModelError, r)
             /\ mutate (AddMilestone newId milestoneData) now r
                = (Some ModelError, r)).
  { intros. split; reflexivity. }
  destruct m as [newId d|taskId status|newId d|body]; cbn [mutate] in *.
  - repeat split; auto; apply Hadd.
  - destruct (updateTaskStatus_frame taskId status now r)
      as (H1 & H2 & H3 & H4 & H5 & H6).
    repeat split; auto; apply Hadd.
  - repeat split; auto; apply Hadd.
  - destruct (updateMetadata_frame now body r)
      as (H1 & H2 & H3 & H4 & H5 & H6 & H7 & H8).
    rewrite H1. repeat split; auto; apply Hadd.
Qed.

Lemma castTask_fields (newId : ObjectId) (d : TaskData.t) (task : Task.t) :
  castTask newId d = Some task ->
  Task._id task = newId
  /\ Task.title task = Js.trim (TaskData.title d)
  /\ Category.to_string (Task.category task) = TaskData.category d
  /\ TaskStatus.of_string (default "Not Started" (TaskData.status d))
     = Some (Task.status task)
  /\ Task.completedDate task = TaskData.completedDate d
  /\ Task.priority task = TaskData.priority d.
Proof.
  unfold castTask. cbn zeta.
  repeat match goal with
         | |- context [if ?b then None else _] => destruct b
         end; try discriminate.
  destruct (Category.of_string (TaskData.category d)) as [c|] eqn:Ec;
    [|discriminate].
  destruct (TaskStatus.of_string _) as [st|]; [|discriminate].
  intros H. injection H as <-. cbn. repeat split.
  unfold Category.of_string in Ec.
  destruct (String.eqb_spec (TaskData.category d) "Plan") as [->|_];
    [injection Ec as <-; reflexivity|].
  destruct (String.eqb_spec (TaskData.category d) "Do") as [->|_];
    [injection Ec as <-; reflexivity|].
  destruct (String.eqb_spec (TaskData.category d) "Check") as [->|_];
    [injection Ec as <-; reflexivity|].
  destruct (String.eqb_spec (TaskData.category d) "Act") as [->|_];
    [injection Ec as <-; reflexivity|discriminate].
Qed.

Lemma castMilestone_title (id : ObjectId) (d : MilestoneData.t)
    (m : Milestone.t) :
  castMilestone id d = Some m ->
  Milestone.title m = Js.trim (MilestoneData.title d).
Proof.
  unfold castMilestone. cbn zeta.
  repeat match goal with
         | |- context [if ?b then None else _] => destruct b
         end; try discriminate.
  destruct (MilestoneData.targetDate d); [|discriminate].
  intros H. injection H as <-. reflexivity.
Qed.

(** X16. Every roadmap the system holds has the three milestones of its
    generation, under their three titles and in that order: no mutation
    adds one, [addMilestone] failing on every call. *)
Theorem reachable_milestones_fixed (r : Roadmap.t) :
  reachable r ->
  Milestone.title <$> Roadmap.milestones r
  = [ "Initial Assessment Complete"; "Critical Issues Resolved";
      "Target Maturity Level Achieved" ].
Proof.
  induction 1 as [newId taskIds milestoneIds now user body q r H
                 | m now r _ IH].
  - unfold generate in H.
    destruct (negb (validate_create body)); [discriminate|].
    destruct (negb (isIn _ _)); [discriminate|].
    destruct (negb (forallb _ _)); [discriminate|].
    destruct (castArray castTask taskIds (initialTasks q)) as [tasks|];
      [|discriminate].
    unfold castArray, initialMilestones in H. cbn [imap mapM] in H.
    cbn [mbind option_bind mret option_ret fst snd] in H.
    destruct (castMilestone _ _) as [m1|] eqn:E1 in H; [|discriminate].
    cbn [mbind option_bind] in H.
    destruct (castMilestone _ _) as [m2|] eqn:E2 in H; [|discriminate].
    cbn [mbind option_bind] in H.
    destruct (castMilestone _ _) as [m3|] eqn:E3 in H; [|discriminate].
    cbn in H. injection H as <-.
    cbn [Roadmap.milestones roadmap_preSave Roadmap.set_lastUpdated
         Roadmap.set_progress fmap list_fmap].
    apply castMilestone_title in E1, E2, E3.
    rewrite E1, E2, E3. reflexivity.
  - rewrite mutate_milestones. exact IH.
Qed.

(** X17. Adding a task through its route never stores anything.  A body
    that passes the chains, sent for a roadmap that exists by its owner
    or an administrator, is answered with the status 500 and the error
    'Failed to add task', the method throwing before it pushes the task;
    every other request is answered with its own failure.  In all cases
    the stored roadmaps are as they were. *)
Theorem addTaskRoute_never_stores (user : User.t) (id newId : ObjectId)
    (body : TaskData.t) (now : Date) (db : list Roadmap.t) :
  snd (addTaskRoute user id newId body now db) = db
  /\ is_failure (fst (addTaskRoute user id newId body now db))
  /\ (forall i r,
        validate_addTask body = [] ->
        findRoadmap id db = Some (i, r) ->
        authorised user (Roadmap.userId r) ->
        addTaskRoute user id newId body now db
        = (InternalError "Failed to add task", db)).
Proof.
  split; [|split].
  - unfold addTaskRoute. destruct (validate_addTask body); [|reflexivity].
    destruct (findRoadmap id db) as [[i r]|]; [|reflexivity].
    destruct (_ && _); reflexivity.
  - unfold addTaskRoute. destruct (validate_addTask body); [|exact I].
    destruct (findRoadmap id db) as [[i r]|]; [|exact I].
    destruct (_ && _); exact I.
  - intros i r Hval Hfind Hauth. unfold addTaskRoute.
    rewrite Hval, Hfind, (proj2 (owner_check_false user _) Hauth).
    reflexivity.
Qed.

Lemma metadata_errors_nil (body : MetadataBody.t) :
  metadata_errors body = [] -> validate_metadata body = true.
Proof.
  unfold metadata_errors, validate_metadata, chain.
  repeat match goal with
         | |- context [if ?b then [] else _] => destruct b
         end; try discriminate.
  reflexivity.
Qed.

(** X18. The metadata route changes the stored roadmaps only for the
    owner of the addressed roadmap or an administrator, and then only the
    title, the description, the status, the timeline and the cost of
    that roadmap: its tasks, milestones, priority areas, progress, time
    of the last update, owner and questionnaire stay, the stored
    progress of every roadmap stays that of its tasks, and the other
    roadmaps are as they were.  A title that the body has is stored
    trimmed. *)
Theorem updateRoadmapRoute_touches_metadata_only (user : User.t)
    (id : ObjectId) (body : MetadataBody.t) (now : Date)
    (db : list Roadmap.t) :
  Forall consistent db ->
  let db' := snd (updateRoadmapRoute user id body now db) in
  Forall consistent db'
  /\ length db' = length db
  /\ Roadmap._id <$> db' = Roadmap._id <$> db
  /\ (forall j r, db !! j = Some r -> Roadmap._id r <> id -> db' !! j = Some r)
  /\ (db' <> db ->
      exists i r saved,
        findRoadmap id db = Some (i, r)
        /\ authorised user (Roadmap.userId r)
        /\ updateRoadmapRoute user id body now db
           = (Success saved, <[i := saved]> db)
        /\ Roadmap.tasks saved = Roadmap.tasks r
        /\ Roadmap.milestones saved = Roadmap.milestones r
        /\ Roadmap.priorityAreas saved = Roadmap.priorityAreas r
        /\ Roadmap.progress saved = Roadmap.progress r
        /\ Roadmap.lastUpdated saved = Roadmap.lastUpdated r
        /\ Roadmap.userId saved = Roadmap.userId r
        /\ Roadmap.questionnaireId saved = Roadmap.questionnaireId r
        /\ Roadmap.title saved
           = default (Roadmap.title r) (Js.trim <$> MetadataBody.title body)).
Proof.
  intros Hdb. cbn zeta. unfold updateRoadmapRoute.
  destruct (metadata_errors body) eqn:Herr;
    [|repeat split; auto; intros H; contradiction].
  destruct (findRoadmap id db) as [[i r]|] eqn:Hfind;
    [|repeat split; auto; intros H; contradiction].
  destruct (_ && _) eqn:Hcheck;
    [repeat split; auto; intros H; contradiction|].
  pose proof (updateMetadata_frame now body r) as Hframe. cbn zeta in Hframe.
  pose proof (mutate_consistent (UpdateMetadata body) now r) as Hcons.
  cbn [mutate] in Hcons.
  assert (Htitle : fst (updateMetadata now body r) = None ->
                   Roadmap.title (snd (updateMetadata now body r))
                   = default (Roadmap.title r)
                       (Js.trim <$> MetadataBody.title body)).
  { unfold updateMetadata. destruct (validate_metadata body); [|discriminate].
    destruct (metadata_saves body); [|discriminate]. reflexivity. }
  destruct (updateMetadata now body r) as [[e|] saved];
    [repeat split; auto; intros H; contradiction|].
  cbn [fst snd] in *.
  destruct Hframe as (H1 & H2 & H3 & H4 & H5 & H6 & H7 & H8).
  apply findRoadmap_Some in Hfind as [Hi Hid].
  split; [|split; [|split; [|split]]].
  - apply Forall_insert; [exact Hdb|].
    apply Hcons, (proj1 (Forall_lookup _ _) Hdb i r Hi).
  - apply length_insert.
  - rewrite list_fmap_insert, H6. apply list_insert_id.
    rewrite list_lookup_fmap, Hi. reflexivity.
  - intros j r' Hj Hne. rewrite list_lookup_insert_ne; [exact Hj|].
    intros ->. rewrite Hi in Hj. injection Hj as ->. contradiction.
  - intros _. exists i, r, saved.
    split; [reflexivity|].
    split; [apply owner_check_false, Hcheck|].
    repeat split; auto.
Qed.

(** ** Generation of a roadmap *)

Lemma castArray_castFrom {A B} (cast : ObjectId -> A -> option B)
    (ids : nat -> ObjectId) (l : list A) :
  castArray cast ids l = castFrom cast ids 0 l.
Proof.
  unfold castArray.
  change (imap pair l) with (imap (fun i => pair (0 + i)%nat) l).
  generalize 0%nat as n. induction l as [|x l IH]; intros n; [reflexivity|].
  rewrite imap_cons. cbn [mapM castFrom fst snd].
  rewrite Nat.add_0_r.
  rewrite (imap_ext _ (fun i => pair (S n + i)%nat)
             l) by (intros i y _; cbn; f_equal; lia).
  rewrite IH.
  destruct (cast (ids n) x); [|reflexivity].
  destruct (castFrom cast ids (S n) l); reflexivity.
Qed.

Lemma castFrom_Forall {A B} (cast : ObjectId -> A -> option B)
    (P : A -> Prop) (R : B -> Prop) (ids : nat -> ObjectId) (n : nat)
    (l : list A) (k : list B) :
  (forall id x y, cast id x = Some y -> P x -> R y) ->
  Forall P l -> castFrom cast ids n l = Some k ->
  Forall R k /\ length k = length l.
Proof.
  intros Hcast Hl. revert n k.
  induction Hl as [|x l Hx _ IH]; intros n k; cbn.
  - intros H. injection H as <-. split; [constructor|reflexivity].
  - destruct (cast (ids n) x) as [y|] eqn:E; [|discriminate].
    destruct (castFrom cast ids (S n) l) as [ys|] eqn:E'; [|discriminate].
    intros H. injection H as <-. destruct (IH (S n) ys E') as [HR Hlen].
    split; [constructor; eauto|cbn; lia].
Qed.

Lemma castFrom_None {A B} (cast : ObjectId -> A -> option B)
    (ids : nat -> ObjectId) (n : nat) (l : list A) (x : A) :
  x ∈ l -> (forall id, cast id x = None) -> castFrom cast ids n l = None.
Proof.
  intros Hx Hnone. revert n.
  induction l as [|a l IH]; intros n; [inversion Hx|].
  cbn. apply elem_of_cons in Hx as [<-|Hx].
  - rewrite Hnone. reflexivity.
  - rewrite (IH Hx). destruct (cast (ids n) a); reflexivity.
Qed.

Lemma initialTasks_not_started (q : Questionnaire.t) :
  Forall (fun d => TaskData.status d = Some "Not Started"
                   /\ TaskData.completedDate d = None)
         (initialTasks q).
Proof.
  rewrite initialTasks_eq. apply Forall_app. split.
  - apply Forall_fmap, Forall_forall. intros nc _. split; reflexivity.
  - apply Forall_forall. intros t Ht.
    apply lowScore_tasks_elem in Ht as (c & _ & ->). split; reflexivity.
Qed.

Lemma generate_Some newId taskIds milestoneIds now user body q r :
  generate newId taskIds milestoneIds now user body q = Some r ->
  exists tasks milestones,
    castFrom castTask taskIds 0 (initialTasks q) = Some tasks
    /\ castFrom castMilestone milestoneIds 0
         (initialMilestones now (CreateBody.targetMaturityLevel body))
       = Some milestones
    /\ Roadmap.tasks r = tasks
    /\ Roadmap.milestones r = milestones
    /\ Roadmap.progress r = recompute tasks
    /\ Roadmap.status r = "Draft"
    /\ Roadmap.lastUpdated r = now
    /\ Roadmap.userId r = User._id user
    /\ Roadmap.questionnaireId r = Questionnaire._id q
    /\ Roadmap._id r = newId.
Proof.
  unfold generate.
  destruct (negb (validate_create body)); [discriminate|].
  destruct (negb (isIn _ _)); [discriminate|].
  destruct (negb (forallb _ _)); [discriminate|].
  rewrite !castArray_castFrom.
  destruct (castFrom castTask taskIds 0 (initialTasks q)) as [tasks|];
    [|discriminate].
  destruct (castFrom castMilestone milestoneIds 0 _) as [milestones|];
    [|discriminate].
  cbn. intros H. injection H as <-. exists tasks, milestones.
  repeat split.
Qed.

Lemma castTask_not_started (id : ObjectId) (d : TaskData.t) (t : Task.t) :
  castTask id d = Some t ->
  TaskData.status d = Some "Not Started" /\ TaskData.completedDate d = None ->
  Task.status t = TaskStatus.NotStarted /\ Task.completedDate t = None.
Proof.
  intros Hc [Hs Hd].
  destruct (castTask_fields id d t Hc) as (_ & _ & _ & Hst & Hcd & _).
  rewrite Hs in Hst. cbn in Hst. injection Hst as <-.
  split; [reflexivity|congruence].
Qed.

(** X19. A roadmap as generated: it is a draft of the requesting user for
    the questionnaire, with three milestones, one task per initial task,
    every task Not Started without a completion date, and a progress of
    0 overall and in every category. *)
Theorem generated_roadmap_is_fresh newId taskIds milestoneIds now user body
    q r :
  generate newId taskIds milestoneIds now user body q = Some r ->
  Roadmap.status r = "Draft"
  /\ Roadmap.userId r = User._id user
  /\ Roadmap.questionnaireId r = Questionnaire._id q
  /\ length (Roadmap.milestones r) = 3%nat
  /\ length (Roadmap.tasks r) = length (initialTasks q)
  /\ Forall (fun t => Task.status t = TaskStatus.NotStarted
                      /\ Task.completedDate t = None) (Roadmap.tasks r)
  /\ Roadmap.progress r = Progress.mk 0 (ByCategory.mk 0 0 0 0)%Z.
Proof.
  intros H.
  apply generate_Some in H
    as (tasks & milestones & Ht & Hm & Htasks & Hmiles & Hprog & Hst & _
        & Hu & Hq & _).
  destruct (castFrom_Forall castTask _ _ taskIds 0 _ _
              castTask_not_started (initialTasks_not_started q) Ht)
    as [Hns Hlen].
  destruct (castFrom_Forall castMilestone (fun _ => True) (fun _ => True)
              milestoneIds 0 _ _ (fun _ _ _ _ _ => I)
              (proj2 (Forall_forall _ _) (fun _ _ => I)) Hm) as [_ Hl].
  rewrite Htasks, Hmiles, Hprog.
  split; [exact Hst|]. split; [exact Hu|]. split; [exact Hq|].
  split; [exact Hl|]. split; [exact Hlen|]. split; [exact Hns|].
  apply recompute_none_completed.
  eapply Forall_impl; [exact Hns|]. intros t [-> _]. discriminate.
Qed.

Lemma trimEnd_cons (c : ascii) (s : string) :
  Js.trimEnd s <> "" -> Js.trimEnd (String c s) = String c (Js.trimEnd s).
Proof.
  intros H. cbn [Js.trimEnd]. destruct (Js.trimEnd s); [contradiction|].
  reflexivity.
Qed.

Lemma trimEnd_app (prefix s : string) :
  Js.trimEnd s = s -> s <> "" -> Js.trimEnd (prefix ++ s) = prefix ++ s.
Proof.
  intros Hs Hne. induction prefix as [|c prefix IH]; [exact Hs|].
  change (String c prefix ++ s) with (String c (prefix ++ s)).
  rewrite trimEnd_cons; rewrite IH; [reflexivity|].
  destruct prefix; [exact Hne|discriminate].
Qed.

(** X20. A non-conformity whose question is longer than 191 characters
    makes the generation fail: the title of its task would exceed the
    200 characters of the task schema, and no roadmap is stored.  The
    question is a text in ASCII, so that its bytes are its characters,
    and does not end in white space, which the schema would trim. *)
Theorem long_question_rejects_generation newId taskIds milestoneIds now user
    body q nc :
  nc ∈ Questionnaire.majorNonConformities q ->
  ascii_text (NonConformity.question nc) ->
  Js.trimEnd (NonConformity.question nc) = NonConformity.question nc ->
  (191 < String.length (NonConformity.question nc))%nat ->
  generate newId taskIds milestoneIds now user body q = None.
Proof.
  intros Hnc _ Htrim Hlong. unfold generate.
  destruct (negb (validate_create body)); [reflexivity|].
  destruct (negb (isIn _ _)); [reflexivity|].
  destruct (negb (forallb _ _)); [reflexivity|].
  rewrite (castArray_castFrom castTask).
  rewrite (castFrom_None castTask taskIds 0 (initialTasks q)
             (nonConformity_task q nc)); [reflexivity| |].
  - rewrite initialTasks_eq. apply elem_of_app. left.
    apply list_elem_of_fmap. exists nc. split; [reflexivity|exact Hnc].
  - intros id. unfold castTask. cbn zeta.
    assert (Htitle : Js.trim (TaskData.title (nonConformity_task q nc))
                     = "Resolve: " ++ NonConformity.question nc).
    { cbn [nonConformity_task TaskData.title]. unfold Js.trim.
      change (Js.trimStart ("Resolve: " ++ NonConformity.question nc))
        with ("Resolve: " ++ NonConformity.question nc).
      apply trimEnd_app; [exact Htrim|].
      intros E. rewrite E in Hlong. cbn in Hlong. lia. }
    rewrite Htitle.
    replace (within 200 ("Resolve: " ++ NonConformity.question nc))
      with false; [rewrite andb_false_r; reflexivity|].
    symmetry. unfold within. apply Nat.leb_gt.
    change (String.length ("Resolve: " ++ NonConformity.question nc))
      with (9 + String.length (NonConformity.question nc))%nat.
    lia.
Qed.

(** X21. Without non-conformities the initial tasks are those of the low
    scores alone: at most four, none of priority Critical. *)
Theorem initialTasks_without_nonConformities (q : Questionnaire.t) :
  Questionnaire.majorNonConformities q = [] ->
  initialTasks q = lowScore_tasks (Questionnaire.categoryScores q)
  /\ (length (initialTasks q) <= 4)%nat
  /\ Forall (fun d => TaskData.priority d = "High"
                      \/ TaskData.priority d = "Medium") (initialTasks q).
Proof.
  intros Hnc. rewrite initialTasks_eq, Hnc. cbn [fmap list_fmap app].
  split; [reflexivity|]. split.
  - unfold lowScore_tasks.
    repeat match goal with
           | |- context [(?s <? 60)%Z] => destruct (s <? 60)%Z
           end; cbn; lia.
  - apply Forall_forall. intros t Ht.
    apply lowScore_tasks_elem in Ht as (c & _ & ->).
    cbn. destruct (_ <? 40)%Z; auto.
Qed.

(** X22. The priority areas: one per category, in the order Plan, Do,
    Check, Act; for a current score between 0 and 100 the target is at
    least the current score and at most 100, and the improvement needed,
    their difference, is between 0 and 20. *)
Theorem priorityAreas_in_range (q : Questionnaire.t) :
  (forall c, (0 <= ByCategory.get c (Questionnaire.categoryScores q)
              <= 100)%Z) ->
  PriorityArea.category <$> priorityAreas q = Category.keys
  /\ Forall (fun a =>
               PriorityArea.currentScore a
               = ByCategory.get (PriorityArea.category a)
                   (Questionnaire.categoryScores q)
               /\ (PriorityArea.currentScore a <= PriorityArea.targetScore a
                   <= 100)%Z
               /\ (0 <= PriorityArea.improvementNeeded a <= 20)%Z
               /\ (PriorityArea.currentScore a
                   + PriorityArea.improvementNeeded a
                   = PriorityArea.targetScore a)%Z)
            (priorityAreas q).
Proof.
  intros H. split; [reflexivity|].
  unfold priorityAreas, ByCategory.entries. cbn [map Category.keys].
  pose proof (H Category.Plan). pose proof (H Category.Do).
  pose proof (H Category.Check). pose proof (H Category.Act).
  repeat (apply Forall_cons; split;
          [cbn [PriorityArea.currentScore PriorityArea.targetScore
                PriorityArea.improvementNeeded PriorityArea.category]; lia|]).
  constructor.
Qed.

(** ** The routes on a stored roadmap *)

(** X23. An identifier that no task of the roadmap has is answered with
    the status 500 and the error 'Failed to update task', whatever the
    valid status asked for, and nothing is stored. *)
Theorem unknown_task_is_internal_error (user : User.t) (id taskId : ObjectId)
    (status : TaskStatus.t) (now : Date) (db : list Roadmap.t) (i : nat)
    (r : Roadmap.t) :
  findRoadmap id db = Some (i, r) ->
  authorised user (Roadmap.userId r) ->
  (forall t, t ∈ Roadmap.tasks r -> Task._id t <> taskId) ->
  updateTaskRoute user id taskId (TaskStatus.to_string status) now db
  = (InternalError "Failed to update task", db).
Proof.
  intros Hfind Hauth Hnone. unfold updateTaskRoute.
  replace (TaskStatus.of_string (TaskStatus.to_string status))
    with (Some status) by (destruct status; reflexivity).
  rewrite Hfind, (proj2 (owner_check_false user _) Hauth).
  apply tasks_id_None in Hnone.
  unfold updateTaskStatus. rewrite Hnone. reflexivity.
Qed.

(** X24. The two routes change the stored roadmaps only for the owner of
    the addressed roadmap or an administrator: a status update then
    replaces that one roadmap by what [updateTaskStatus] stores, and a
    delete removes it; every other answer leaves the roadmaps as they
    were. *)
Theorem roadmap_changes_are_authorised (user : User.t) (id taskId : ObjectId)
    (status : string) (now : Date) (db : list Roadmap.t) :
  (snd (updateTaskRoute user id taskId status now db) <> db ->
   exists i r st,
     findRoadmap id db = Some (i, r)
     /\ authorised user (Roadmap.userId r)
     /\ TaskStatus.of_string status = Some st
     /\ fst (updateTaskStatus taskId st now r) = None
     /\ updateTaskRoute user id taskId status now db
        = (Success tt, <[i := snd (updateTaskStatus taskId st now r)]> db))
  /\ (snd (deleteRoadmap user id db) <> db ->
      exists i r,
        findRoadmap id db = Some (i, r)
        /\ authorised user (Roadmap.userId r)
        /\ deleteRoadmap user id db = (Success tt, delete i db)).
Proof.
  split.
  - unfold updateTaskRoute.
    destruct (TaskStatus.of_string status) as [st|];
      [|intros H; contradiction].
    destruct (findRoadmap id db) as [[i r]|] eqn:Hfind;
      [|intros H; contradiction].
    destruct (_ && _) eqn:E; [intros H; contradiction|].
    destruct (updateTaskStatus taskId st now r) as [[e|] saved] eqn:Hupd;
      [intros H; contradiction|].
    intros _. exists i, r, st. rewrite Hupd. repeat split.
    apply owner_check_false, E.
  - unfold deleteRoadmap.
    destruct (findRoadmap id db) as [[i r]|] eqn:Hfind;
      [|intros H; contradiction].
    destruct (_ && _) eqn:E; [intros H; contradiction|].
    intros _. exists i, r. repeat split. apply owner_check_false, E.
Qed.

(** X25. The route keeps the stored progress of every roadmap that of its
    tasks, leaves the roadmaps at the other positions as they were, and
    neither adds nor removes a roadmap. *)
Theorem updateTaskRoute_keeps_progress (user : User.t) (id taskId : ObjectId)
    (status : string) (now : Date) (db : list Roadmap.t) :
  Forall consistent db ->
  let db' := snd (updateTaskRoute user id taskId status now db) in
  Forall consistent db'
  /\ length db' = length db
  /\ Roadmap._id <$> db' = Roadmap._id <$> db
  /\ forall j r, db !! j = Some r -> Roadmap._id r <> id -> db' !! j = Some r.
Proof.
  intros Hdb. cbn zeta. unfold updateTaskRoute.
  destruct (TaskStatus.of_string status) as [st|]; [|repeat split; auto].
  destruct (findRoadmap id db) as [[i r]|] eqn:Hfind; [|repeat split; auto].
  destruct (_ && _); [repeat split; auto|].
  apply findRoadmap_Some in Hfind as [Hi Hid].
  pose proof (mutate_consistent (UpdateTaskStatus taskId st) now r
                (proj1 (Forall_lookup _ _) Hdb i r Hi)) as Hsaved.
  cbn [mutate] in Hsaved.
  assert (Hsame : Roadmap._id (snd (updateTaskStatus taskId st now r))
                  = Roadmap._id r).
  { unfold updateTaskStatus.
    destruct (tasks_id taskId (Roadmap.tasks r)) as [[k task]|];
      [|reflexivity].
    cbn [snd]. destruct (bool_decide _); reflexivity. }
  destruct (updateTaskStatus taskId st now r) as [[e|] saved];
    [repeat split; auto|].
  cbn [snd] in *. split; [|split; [|split]].
  - apply Forall_insert; assumption.
  - apply length_insert.
  - rewrite list_fmap_insert, Hsame. apply list_insert_id.
    rewrite list_lookup_fmap, Hi. reflexivity.
  - intros j r' Hj Hne. rewrite list_lookup_insert_ne; [exact Hj|].
    intros ->. rewrite Hi in Hj. injection Hj as ->. contradiction.
Qed.

(** ** The counts of the progress route *)







(** ** Instances of the further properties *)

Ltac sample_within :=
  repeat (apply Forall_cons; split;
          [split; unfold Qle; simpl; lia|]);
  constructor.

Lemma overallScore_in_range_witness :
  (0 <= compute_overallScore sample_responses)%Q
  /\ (compute_overallScore sample_responses <= 100)%Q.
Proof.
  destruct (overallScore_in_range sample_responses) as (H0 & H1 & _).
  - sample_within.
  - split; [exact H0|exact H1].
Defined.

Lemma categoryScores_in_range_witness :
  (0 <= ByCategory.get Category.Plan
          (compute_categoryScores (ByCategory.const 0%Z) sample_responses)
   <= 100)%Z.
Proof.
  apply (categoryScores_in_range (ByCategory.const 0%Z) sample_responses
           Category.Plan).
  sample_within.
Defined.

Lemma derived_fields_invariant_witness :
  (exists saved,
     update sample_user "q-7" sample_rescore [sample_stored_questionnaire]
     = (Success saved, [saved])
     /\ Questionnaire.overallScore saved = 100%Q
     /\ Questionnaire.overallScore sample_stored_questionnaire = (175 # 2)%Q)
  /\ Forall derived_from_responses
       (snd (update sample_user "q-7" sample_rescore
               [sample_stored_questionnaire])).
Proof.
  split.
  - eexists. split; [vm_compute; reflexivity|]. split; reflexivity.
  - apply (derived_fields_invariant sample_user "q-7" sample_rescore
             [sample_stored_questionnaire]).
    apply Forall_cons. split; [apply preSave_derived|constructor].
Defined.

Lemma submit_never_stores_witness :
  submit sample_user "q-1" sample_body [sample_stored_questionnaire]
  = (InternalError "Questionnaire submission failed",
     [sample_stored_questionnaire]).
Proof.
  apply (submit_never_stores sample_user "q-1" sample_body
           [sample_stored_questionnaire]).
  reflexivity.
Defined.

Lemma stored_scores_within_witness :
  exists saved,
    update sample_user "q-7" sample_rescore [sample_stored_questionnaire]
    = (Success saved, [saved])
    /\ Forall scored_within (Questionnaire.responses saved).
Proof.
  eexists. split; [vm_compute; reflexivity|].
  eapply (stored_scores_within sample_user "q-7" sample_rescore
            [sample_stored_questionnaire] _
            (SubmitBody.responses sample_body)).
  - reflexivity.
  - unfold nonneg_weights, sample_body. cbn [SubmitBody.responses].
    repeat (apply Forall_cons; split;
            [intros w H; injection H as <-; unfold Qle; simpl; lia|]).
    constructor.
  - vm_compute. reflexivity.
Defined.

Lemma update_then_get_witness :
  exists saved,
    update sample_user "q-7" sample_rescore [sample_stored_questionnaire]
    = (Success saved, [saved])
    /\ getQuestionnaire sample_user "q-7" [saved] = Success saved
    /\ getQuestionnaire sample_stranger "q-7" [saved] = AccessDenied.
Proof.
  assert (Hupd : exists saved,
             update sample_user "q-7" sample_rescore
               [sample_stored_questionnaire]
             = (Success saved, [saved]))
    by (eexists; vm_compute; reflexivity).
  destruct Hupd as [saved E]. exists saved. split; [exact E|].
  destruct (update_then_get sample_user sample_stranger "q-7" sample_rescore
              [sample_stored_questionnaire] [saved] saved E)
    as (_ & Hget & _ & Hdenied & _).
  split; [exact Hget|].
  assert (Howner : Questionnaire.userId saved = "user-1").
  { vm_compute in E. injection E as <-. reflexivity. }
  apply Hdenied; [rewrite Howner|]; discriminate.
Defined.

Lemma delete_then_get_witness :
  getQuestionnaire sample_user "q-7" [sample_questionnaire] = NotFound.
Proof.
  apply (delete_then_get sample_user sample_user "q-7"
           [sample_stored_questionnaire; sample_questionnaire]
           [sample_questionnaire]).
  - apply (bool_decide_unpack _). vm_compute. exact I.
  - reflexivity.
Defined.

Lemma questionnaire_changes_are_authorised_witness :
  exists i q,
    findQuestionnaire "q-7" [sample_stored_questionnaire] = Some (i, q)
    /\ authorised sample_user (Questionnaire.userId q).
Proof.
  destruct (proj2 (questionnaire_changes_are_authorised sample_user "q-7"
                     (UpdateBody.mk None None None None)
                     [sample_stored_questionnaire]))
    as (i & q & Hfind & Hauth & _).
  - vm_compute. discriminate.
  - exists i, q. split; assumption.
Defined.

Lemma progress_extremes_witness :
  Progress.overall
    (recompute
       [sample_task "t1" Category.Plan TaskStatus.Completed (Some 1000%Z)])
  = 100%Z.
Proof.
  apply (proj1 (progress_extremes
                  [sample_task "t1" Category.Plan TaskStatus.Completed
                     (Some 1000%Z)])).
  apply Forall_cons. split; [reflexivity|constructor].
Defined.

Lemma completing_never_lowers_progress_witness :
  (Progress.overall (Roadmap.progress sample_roadmap)
   <= Progress.overall
        (Roadmap.progress
           (snd (updateTaskStatus "t2" TaskStatus.Completed 5000%Z
                   sample_roadmap))))%Z.
Proof.
  apply (completing_never_lowers_progress sample_roadmap "t2" 1
           (sample_task "t2" Category.Do TaskStatus.NotStarted None) 5000%Z).
  - vm_compute. reflexivity.
  - reflexivity.
Defined.

Lemma mutations_keep_tasks_and_milestones_witness :
  snd (mutate (AddTask "t4" sample_taskData) 2000%Z sample_roadmap)
  = sample_roadmap
  /\ snd (mutate (UpdateTaskStatus "t9" TaskStatus.Completed) 5000%Z
            sample_roadmap)
     = sample_roadmap.
Proof.
  split.
  - apply (mutations_keep_tasks_and_milestones
             (AddTask "t4" sample_taskData) 2000%Z sample_roadmap).
    vm_compute. discriminate.
  - apply (mutations_keep_tasks_and_milestones
             (UpdateTaskStatus "t9" TaskStatus.Completed) 5000%Z
             sample_roadmap).
    vm_compute. discriminate.
Defined.

Lemma reachable_milestones_fixed_witness :
  exists r,
    generate "r1" (sample_ids "t") (sample_ids "m") 1000%Z sample_user
      sample_create sample_questionnaire = Some r
    /\ Milestone.title
       <$> Roadmap.milestones
             (snd (mutate (AddMilestone "m9"
                             (MilestoneData.mk "Audit passed"
                                "The certification audit is passed"
                                (Some 9000%Z) None []))
                     5000%Z r))
       = [ "Initial Assessment Complete"; "Critical Issues Resolved";
           "Target Maturity Level Achieved" ].
Proof.
  eexists. split; [vm_compute; reflexivity|].
  apply reachable_milestones_fixed.
  apply reachable_mutate.
  eapply reachable_generate
    with (newId := "r1") (taskIds := sample_ids "t")
         (milestoneIds := sample_ids "m") (now := 1000%Z)
         (user := sample_user) (body := sample_create)
         (questionnaire := sample_questionnaire).
  vm_compute. reflexivity.
Defined.

Lemma addTaskRoute_never_stores_witness :
  addTaskRoute sample_user "r1" "t4" sample_taskData 2000%Z sample_roadmaps
  = (InternalError "Failed to add task", sample_roadmaps).
Proof.
  apply (addTaskRoute_never_stores sample_user "r1" "t4" sample_taskData
           2000%Z sample_roadmaps)
    with (i := 1%nat) (r := sample_roadmap).
  - reflexivity.
  - reflexivity.
  - left. reflexivity.
Defined.

Lemma updateRoadmapRoute_touches_metadata_only_witness :
  exists i r saved,
    findRoadmap "r1" sample_roadmaps = Some (i, r)
    /\ updateRoadmapRoute sample_user "r1" sample_valid_metadata 5000%Z
         sample_roadmaps
       = (Success saved, <[i := saved]> sample_roadmaps)
    /\ Roadmap.tasks saved = Roadmap.tasks r
    /\ Roadmap.title saved = "Roadmap 2027".
Proof.
  destruct (updateRoadmapRoute_touches_metadata_only sample_user "r1"
              sample_valid_metadata 5000%Z sample_roadmaps)
    as (_ & _ & _ & _ & H).
  - apply Forall_cons. split; [vm_compute; reflexivity|].
    apply Forall_cons. split; [vm_compute; reflexivity|constructor].
  - destruct H as (i & r & saved & Hfind & _ & Hroute & Htasks & _ & _ & _
                   & _ & _ & _ & Htitle).
    + vm_compute. discriminate.
    + exists i, r, saved. split; [exact Hfind|]. split; [exact Hroute|].
      split; [exact Htasks|].
      rewrite Htitle. reflexivity.
Defined.

Lemma generated_roadmap_is_fresh_witness :
  exists r,
    generate "r1" (sample_ids "t") (sample_ids "m") 1000%Z sample_user
      sample_create sample_questionnaire = Some r
    /\ length (Roadmap.milestones r) = 3%nat
    /\ Roadmap.progress r = Progress.mk 0 (ByCategory.mk 0 0 0 0)%Z.
Proof.
  assert (Hgen : exists r,
             generate "r1" (sample_ids "t") (sample_ids "m") 1000%Z
               sample_user sample_create sample_questionnaire = Some r)
    by (eexists; vm_compute; reflexivity).
  destruct Hgen as [r E]. exists r. split; [exact E|].
  destruct (generated_roadmap_is_fresh "r1" (sample_ids "t")
              (sample_ids "m") 1000%Z sample_user sample_create
              sample_questionnaire r E)
    as (_ & _ & _ & Hm & _ & _ & Hp).
  split; [exact Hm|exact Hp].
Defined.

Lemma long_question_rejects_generation_witness :
  generate "r1" (sample_ids "t") (sample_ids "m") 1000%Z sample_user
    sample_create sample_long_questionnaire = None.
Proof.
  apply (long_question_rejects_generation "r1" (sample_ids "t")
           (sample_ids "m") 1000%Z sample_user sample_create
           sample_long_questionnaire
           (NonConformity.mk sample_long_question "5.2" "No policy")).
  - apply list_elem_of_here.
  - reflexivity.
  - reflexivity.
  - vm_compute. lia.
Defined.

Lemma initialTasks_without_nonConformities_witness :
  (length (initialTasks sample_plain_questionnaire) <= 4)%nat.
Proof.
  apply (initialTasks_without_nonConformities sample_plain_questionnaire).
  reflexivity.
Defined.

Lemma priorityAreas_in_range_witness :
  PriorityArea.category <$> priorityAreas sample_plain_questionnaire
  = Category.keys.
Proof.
  apply (priorityAreas_in_range sample_plain_questionnaire).
  intros c. destruct c; cbn; lia.
Defined.

Lemma unknown_task_is_internal_error_witness :
  updateTaskRoute sample_user "r1" "t9" "Completed" 5000%Z sample_roadmaps
  = (InternalError "Failed to update task", sample_roadmaps).
Proof.
  apply (unknown_task_is_internal_error sample_user "r1" "t9"
           TaskStatus.Completed 5000%Z sample_roadmaps 1 sample_roadmap).
  - reflexivity.
  - left. reflexivity.
  - apply tasks_id_None. reflexivity.
Defined.

Lemma roadmap_changes_are_authorised_witness :
  exists i r,
    findRoadmap "r1" sample_roadmaps = Some (i, r)
    /\ authorised sample_admin (Roadmap.userId r)
    /\ deleteRoadmap sample_admin "r1" sample_roadmaps
       = (Success tt, delete i sample_roadmaps).
Proof.
  apply (roadmap_changes_are_authorised sample_admin "r1" "t1" "Completed"
           5000%Z sample_roadmaps).
  vm_compute. discriminate.
Defined.

Lemma updateTaskRoute_keeps_progress_witness :
  Forall consistent
    (snd (updateTaskRoute sample_user "r1" "t2" "Completed" 5000%Z
            sample_roadmaps)).
Proof.
  apply (updateTaskRoute_keeps_progress sample_user "r1" "t2" "Completed"
           5000%Z sample_roadmaps).
  apply Forall_cons. split; [vm_compute; reflexivity|].
  apply Forall_cons. split; [vm_compute; reflexivity|constructor].
Defined.

